(** * Skolaroid: the Prisma demo's route handlers and page, embedded in Rocq

    The five route handlers under [src/app/api/prisma/user/] and the page
    [src/app/page.tsx] are translated as functions over

    - the JSON value a request body parses to,
    - the [User] table behind the data-access client, and
    - for the page, the component state and the network it fetches from.

    The handlers are thin: each parses the body, checks a field or two and
    makes one call on the data-access client.  The client (generated Prisma
    code over a PostgreSQL table) is not among the sources, so its five
    calls are written out from the specification and from the schema the
    documentation quotes ([model User] in [docs/PRISMA_API_DEMO.md]).
    The get-all route is taken from its listing in the same document. *)

From Stdlib Require Import ZArith List String Bool Lia.
From Stdlib Require Import Sorted Permutation DecimalString.
Import ListNotations.

Local Open Scope string_scope.
Local Open Scope list_scope.
Local Open Scope Z_scope.

#[local] Set Warnings "-register-all".

(** ** JavaScript values that a JSON body can give *)

(** What [request.json()] resolves to.  A number is either an integer,
    [JNum z], or a number that is not an integer, [JFrac below num den],
    whose value is [below + num / (num + den)] and so lies strictly between
    [below] and [below + 1]. *)
Inductive json : Type :=
| JNull
| JBool (b : bool)
| JNum (z : Z)
| JStr (s : string)
| JArr (items : list json)
| JObj (fields : list (string * json))
| JFrac (below : Z) (num den : positive).

(** A destructured or read property: [None] is JavaScript's [undefined]. *)
Definition value : Type := option json.

(** [!v] is [negb (truthy v)]: undefined, null, false, 0 and the empty
    string are falsy, everything else (arrays and objects too, and every
    number that is not an integer) is truthy. *)
Definition truthy (v : value) : bool :=
  match v with
  | None => false
  | Some JNull => false
  | Some (JBool b) => b
  | Some (JNum z) => negb (z =? 0)
  | Some (JStr s) => negb (s =? "")%string
  | Some (JArr _) => true
  | Some (JObj _) => true
  | Some (JFrac _ _ _) => true
  end.

(** [v || null] *)
Definition or_null (v : value) : json :=
  match v with
  | Some j => if truthy v then j else JNull
  | None => JNull
  end.

(** Own property [k] of a parsed object; when the text repeated a key the
    last binding is the one [JSON.parse] keeps. *)
Fixpoint lookup (k : string) (fields : list (string * json)) : value :=
  match fields with
  | [] => None
  | (k', v) :: rest =>
      match lookup k rest with
      | Some w => Some w
      | None => if (k =? k')%string then Some v else None
      end
  end.

(** [Array.isArray(v)] *)
Definition isArray (v : value) : bool :=
  match v with
  | Some (JArr _) => true
  | _ => false
  end.

(** ** The persisted entity and the table *)

(** Modelled from the spec: the [User] entity of [prisma/schema.prisma]
    (the schema file is not among the sources; the documentation quotes
    its [model User]).  [id] is the generated identifier, [email] the
    unique key, [name] optional with null for its absence, and the two
    timestamps are milliseconds. *)
Record User : Type := mkUser {
  id : Z;
  email : string;
  name : option string;
  createdAt : Z;
  updatedAt : Z
}.

(** The calls on [prisma.user] that the handlers make. *)
Inductive Query : Type :=
| QCreate
| QCreateMany
| QDelete
| QDeleteMany
| QFindMany.

(** Modelled from the spec: the database behind the data-access client.
    [online] says whether it can be reached, [rows] is the table in
    insertion order, [seq] the next value of the sequence that generates
    [id] ([@default(autoincrement())]), and [log] the calls made on the
    client so far, latest first.  [coerce_id] is how the client takes a
    value that is not an integer where the schema wants an [Int]: as some
    integer, or not at all.  Neither the specification nor the sources say
    which, so it is left open and every statement holds for each way. *)
Record Db : Type := mkDb {
  online : bool;
  rows : list User;
  seq : Z;
  log : list Query;
  coerce_id : json -> option Z
}.

(** A client that refuses every value that is not an integer. *)
Definition refuse_others (v : json) : option Z := None.

(** A client that reads a number that is not an integer at the integer
    below it, and refuses what is not a number. *)
Definition integer_below (v : json) : option Z :=
  match v with
  | JFrac below _ _ => Some below
  | _ => None
  end.

Definition empty_db : Db :=
  {| online := true; rows := []; seq := 1; log := [];
     coerce_id := refuse_others |}.

Definition with_rows (db : Db) (rs : list User) : Db :=
  {| online := online db; rows := rs; seq := seq db; log := log db;
     coerce_id := coerce_id db |}.

Definition with_coerce_id (db : Db) (reading : json -> option Z) : Db :=
  {| online := online db; rows := rows db; seq := seq db; log := log db;
     coerce_id := reading |}.

Definition with_online (db : Db) (b : bool) : Db :=
  {| online := b; rows := rows db; seq := seq db; log := log db;
     coerce_id := coerce_id db |}.

(** ** Exceptions and the handler monad *)

(** Modelled from the spec: the failures of the data-access client, by the
    codes the documentation lists for them. *)
Inductive PrismaError : Type :=
| P1001            (* database server cannot be reached *)
| P2002            (* unique constraint failed *)
| P2025            (* record required by the operation not found *)
| ValidationError  (* argument of the wrong type, or missing *).

Inductive exn : Type :=
| SyntaxError                       (* request.json() on a body that is not JSON *)
| TypeError                         (* property read or destructuring of null *)
| PrismaClientError (e : PrismaError).

(** [error.message]; every [exn] is an [Error] instance.  The texts of the
    client's errors are those of the documentation's error scenarios; the
    handlers pass them on unread. *)
Definition message (e : exn) : string :=
  match e with
  | SyntaxError => "Unexpected end of JSON input"
  | TypeError => "Cannot read properties of null"
  | PrismaClientError P1001 => "Can't reach database server"
  | PrismaClientError P2002 => "Unique constraint failed on the fields: (`email`)"
  | PrismaClientError P2025 => "Record not found"
  | PrismaClientError ValidationError => "Invalid invocation"
  end.

(** A computation that may throw and that works on the database; what was
    done before a throw stays done. *)
Definition M (A : Type) : Type := Db -> Db * (exn + A).

Definition ret {A} (a : A) : M A := fun db => (db, inr a).

Definition throw {A} (e : exn) : M A := fun db => (db, inl e).

Definition bind {A B} (m : M A) (k : A -> M B) : M B :=
  fun db =>
    match m db with
    | (db', inr a) => k a db'
    | (db', inl e) => (db', inl e)
    end.

Notation "x <- m ;; k" := (bind m (fun x => k))
  (at level 61, m at next level, right associativity).
Notation "m ;;; k" := (bind m (fun _ => k))
  (at level 61, right associativity).

(** ** Responses *)

(** The object handed to [NextResponse.json]. *)
Inductive payload : Type :=
| Err (error : string)
| OkUser (msg : string) (user : User)
| OkCount (msg : string) (count : Z)
| OkUsers (users : list User).

Record response : Type := mkResponse {
  status : Z;
  body : payload
}.

(** [NextResponse.json(body)] and [NextResponse.json(body, { status })] *)
Definition NextResponse_json (b : payload) (init : option Z) : response :=
  {| status := match init with Some s => s | None => 200 end; body := b |}.

(** [try { ... } catch (error) { return NextResponse.json({ error: message },
    { status: 500 }) }], the frame every handler has. *)
Definition try_catch (block : M response) : Db -> response * Db :=
  fun db =>
    match block db with
    | (db', inr r) => (r, db')
    | (db', inl error) =>
        (NextResponse_json (Err (message error)) (Some 500), db')
    end.

(** [await request.json()]; [None] is a body that does not parse. *)
Definition request_json (request : option json) : M json :=
  match request with
  | Some j => ret j
  | None => throw SyntaxError
  end.

(** [v.k], and [const { k } = v]: null throws, an object gives its
    property, any other value has no property of the names read here
    ([email], [name], [id], [users]). *)
Definition prop (v : json) (k : string) : M value :=
  match v with
  | JNull => throw TypeError
  | JObj fields => ret (lookup k fields)
  | _ => ret None
  end.

(** [array.map(f)] with a callback that may throw. *)
Fixpoint mapM {X Y} (callback : X -> M Y) (array : list X) : M (list Y) :=
  match array with
  | [] => ret []
  | x :: rest =>
      y <- callback x ;;
      ys <- mapM callback rest ;;
      ret (y :: ys)
  end.

(** The elements of an array value (none for anything else) and
    [users.length]. *)
Definition elements (v : value) : list json :=
  match v with
  | Some (JArr items) => items
  | _ => []
  end.

Definition array_length (v : value) : Z := Z.of_nat (List.length (elements v)).

(** ** The data-access client: [prisma.user]

    The client is generated code ([@/generated/prisma/client]) over a
    PostgreSQL table; neither is among the sources.  Its five calls are
    written out below from what the specification and the documentation say
    of them. *)

(** Modelled from the spec: every call on the client is noted in [log]
    before anything else happens. *)
Definition called (q : Query) : M unit :=
  fun db =>
    ({| online := online db; rows := rows db; seq := seq db;
        log := q :: log db;
        coerce_id := coerce_id db |}, inr tt).

(** Modelled from the spec: the client's check of an argument against the
    column [email String]; it happens before the database is contacted. *)
Definition email_arg (v : value) : M string :=
  match v with
  | Some (JStr s) => ret s
  | _ => throw (PrismaClientError ValidationError)
  end.

(** Modelled from the spec: the same check for [name String?], where null
    and an omitted value are both the absent name. *)
Definition name_arg (v : value) : M (option string) :=
  match v with
  | None => ret None
  | Some JNull => ret None
  | Some (JStr s) => ret (Some s)
  | _ => throw (PrismaClientError ValidationError)
  end.

(** Modelled from the spec: the Int the client takes a value for, if
    any: an integer is taken as it is, any other value as [coerce_id] has
    it. *)
Definition id_read (db : Db) (v : json) : option Z :=
  match v with
  | JNum z => Some z
  | other => coerce_id db other
  end.

(** Modelled from the spec: the same check for [id Int]. *)
Definition id_arg (v : value) : M Z :=
  match v with
  | Some j =>
      fun db =>
        match id_read db j with
        | Some z => (db, inr z)
        | None => (db, inl (PrismaClientError ValidationError))
        end
  | None => throw (PrismaClientError ValidationError)
  end.

(** Modelled from the spec: a query on a database that cannot be reached
    throws (the connectivity error of the error taxonomy). *)
Definition connect : M unit :=
  fun db =>
    if online db then (db, inr tt)
    else (db, inl (PrismaClientError P1001)).

(** Modelled from the spec: the sequence behind [autoincrement()].  An
    [id] once issued is never reused, also when the row it was drawn for
    is not stored. *)
Definition nextval : M Z :=
  fun db =>
    ({| online := online db; rows := rows db; seq := seq db + 1;
        log := log db;
        coerce_id := coerce_id db |}, inr (seq db)).

(** Modelled from the spec: reading and replacing the rows of the table. *)
Definition get_rows : M (list User) := fun db => (db, inr (rows db)).

Definition put_rows (rs : list User) : M unit :=
  fun db => (with_rows db rs, inr tt).

(** Modelled from the spec: the uniqueness constraint [email String
    @unique] -- is the address taken? *)
Definition has_email (e : string) (rs : list User) : bool :=
  existsb (fun u => (email u =? e)%string) rs.

(** Modelled from the spec: one row of an INSERT.  [createdAt] is
    [now()] and [updatedAt] the same instant.  [on_conflict] says what a
    taken address does: [None] skips the row, [Some e] throws [e]; in both
    cases nothing is overwritten.  The result is the row stored, if one
    was. *)
Definition insert_row (e : string) (n : option string) (now : Z)
    (on_conflict : option exn) : M (option User) :=
  i <- nextval ;;
  rs <- get_rows ;;
  if has_email e rs then
    match on_conflict with
    | Some err => throw err
    | None => ret None
    end
  else
    let u := mkUser i e n now now in
    put_rows (rs ++ [u]) ;;;
    ret (Some u).

(** Modelled from the spec: [prisma.user.create({ data: { email, name } })]
    inserts one record and returns it with its generated fields, and fails
    with the constraint violation when the address exists. *)
Definition prisma_user_create (data_email data_name : value) (now : Z)
    : M User :=
  called QCreate ;;;
  e <- email_arg data_email ;;
  n <- name_arg data_name ;;
  connect ;;;
  stored <- insert_row e n now (Some (PrismaClientError P2002)) ;;
  match stored with
  | Some u => ret u
  | None => throw (PrismaClientError P2002)
  end.

(** Modelled from the spec: the argument check of [createMany], entry by
    entry, before the database is contacted. *)
Fixpoint check_many (data : list (value * value))
    : M (list (string * option string)) :=
  match data with
  | [] => ret []
  | (e, n) :: rest =>
      e' <- email_arg e ;;
      n' <- name_arg n ;;
      rest' <- check_many rest ;;
      ret ((e', n') :: rest')
  end.

(** Modelled from the spec: the rows of one bulk INSERT, in order; the
    result counts the rows stored. *)
Fixpoint insert_rows (data : list (string * option string)) (now : Z)
    (on_conflict : option exn) : M Z :=
  match data with
  | [] => ret 0
  | (e, n) :: rest =>
      stored <- insert_row e n now on_conflict ;;
      c <- insert_rows rest now on_conflict ;;
      ret (match stored with Some _ => 1 + c | None => c end)
  end.

(** Modelled from the spec: a statement that throws leaves the table as it
    found it. *)
Definition statement {A} (m : M A) : M A :=
  fun db =>
    match m db with
    | (db', inl e) => (with_rows db' (rows db), inl e)
    | (db', inr a) => (db', inr a)
    end.

(** Modelled from the spec: [prisma.user.createMany({ data,
    skipDuplicates })] inserts all entries in one bulk operation; with
    [skipDuplicates] an entry whose address collides is skipped and the
    batch goes on, without it the collision aborts the batch.  The result
    is [result.count], the number of records inserted. *)
Definition prisma_user_createMany (data : list (value * value))
    (skipDuplicates : bool) (now : Z) : M Z :=
  called QCreateMany ;;;
  checked <- check_many data ;;
  connect ;;;
  statement
    (insert_rows checked now
       (if skipDuplicates then None else Some (PrismaClientError P2002))).

(** Modelled from the spec: [prisma.user.delete({ where: { id } })] removes
    the one record with that [id] and returns its last field values, and
    throws when there is no such record. *)
Definition prisma_user_delete (where_id : value) : M User :=
  called QDelete ;;;
  i <- id_arg where_id ;;
  connect ;;;
  rs <- get_rows ;;
  match find (fun u => id u =? i) rs with
  | Some u =>
      put_rows (filter (fun u => negb (id u =? i)) rs) ;;;
      ret u
  | None => throw (PrismaClientError P2025)
  end.

(** Modelled from the spec: [prisma.user.deleteMany({ where: {} })]
    removes every record; the result is [result.count], the number of rows
    removed, which may be zero. *)
Definition prisma_user_deleteMany : M Z :=
  called QDeleteMany ;;;
  connect ;;;
  rs <- get_rows ;;
  put_rows [] ;;;
  ret (Z.of_nat (List.length rs)).

(** Modelled from the spec: the two directions of [orderBy]. *)
Inductive SortOrder : Type := asc | desc.

(** Modelled from the spec: does [u] go before [v] under the order asked
    for?  The specification orders by [createdAt] and is silent on rows of
    the same instant; here such rows keep the order they have in the
    table.  The statements below speak of the order of a listing through
    [newer_first] and [Permutation] only, which do not see that choice. *)
Definition before (o : SortOrder) (u v : User) : bool :=
  match o with
  | asc => createdAt u <=? createdAt v
  | desc => createdAt v <=? createdAt u
  end.

(** Modelled from the spec: [u] put at its place in a list that is in
    order. *)
Fixpoint place (o : SortOrder) (u : User) (sorted : list User) : list User :=
  match sorted with
  | [] => [u]
  | v :: rest => if before o u v then u :: sorted else v :: place o u rest
  end.

(** Modelled from the spec: the rows in the order asked for. *)
Definition order_by_createdAt (o : SortOrder) (rs : list User) : list User :=
  fold_right (place o) [] rs.

(** Modelled from the spec: [prisma.user.findMany({ orderBy: { createdAt }
    })] returns every record, ordered by [createdAt]. *)
Definition prisma_user_findMany (orderBy_createdAt : SortOrder)
    : M (list User) :=
  called QFindMany ;;;
  connect ;;;
  rs <- get_rows ;;
  ret (order_by_createdAt orderBy_createdAt rs).

(** ** The route handlers *)

(** [src/app/api/prisma/user/create/route.ts] *)
Module create_route.

Definition POST (request : option json) (now : Z) : Db -> response * Db :=
  try_catch (
    parsed <- request_json request ;;
    email <- prop parsed "email" ;;
    name <- prop parsed "name" ;;
    if negb (truthy email) then
      ret (NextResponse_json (Err "Email is required") (Some 400))
    else
      user <- prisma_user_create email (Some (or_null name)) now ;;
      ret (NextResponse_json
             (OkUser "User created successfully" user) None)).

End create_route.

(** [src/app/api/prisma/user/create-many/route.ts] *)
Module create_many_route.

(** [(user) => ({ email: user.email, name: user.name || null })] *)
Definition entry (user : json) : M (value * value) :=
  email <- prop user "email" ;;
  name <- prop user "name" ;;
  ret (email, Some (or_null name)).

Definition POST (request : option json) (now : Z) : Db -> response * Db :=
  try_catch (
    parsed <- request_json request ;;
    users <- prop parsed "users" ;;
    if negb (isArray users) || (array_length users =? 0) then
      ret (NextResponse_json
             (Err "Users array is required and must not be empty")
             (Some 400))
    else
      data <- mapM entry (elements users) ;;
      count <- prisma_user_createMany data true now ;;
      ret (NextResponse_json
             (OkCount "Users created successfully" count) None)).

End create_many_route.

(** [src/app/api/prisma/user/delete/route.ts] *)
Module delete_route.

Definition DELETE (request : option json) : Db -> response * Db :=
  try_catch (
    parsed <- request_json request ;;
    id <- prop parsed "id" ;;
    if negb (truthy id) then
      ret (NextResponse_json (Err "User ID is required") (Some 400))
    else
      user <- prisma_user_delete id ;;
      ret (NextResponse_json
             (OkUser "User deleted successfully" user) None)).

End delete_route.

(** [src/app/api/prisma/user/delete-many/route.ts] *)
Module delete_many_route.

Definition DELETE : Db -> response * Db :=
  try_catch (
    count <- prisma_user_deleteMany ;;
    ret (NextResponse_json
           (OkCount "All users deleted successfully" count) None)).

End delete_many_route.

(** [src/app/api/prisma/user/get-all/route.ts], as listed in
    [docs/PRISMA_API_DEMO.md]. *)
Module get_all_route.

Definition GET : Db -> response * Db :=
  try_catch (
    users <- prisma_user_findMany desc ;;
    ret (NextResponse_json (OkUsers users) None)).

End get_all_route.

(** ** The page: [src/app/page.tsx] *)

(** One [fetch(url, { method, body })]; the body is the object given to
    [JSON.stringify], which is what the handler's [request.json()] gets
    back. *)
Record Fetch : Type := mkFetch {
  url : string;
  method : string;
  sent_body : option json
}.

(** What [setOutput] was last given: a text, or the data that
    [JSON.stringify(data, null, 2)] prints. *)
Inductive Output : Type :=
| Text (s : string)
| Json (data : payload).

(** The component state: [users], [loading], [output]. *)
Record Home : Type := mkHome {
  users : list User;
  loading : bool;
  output : Output
}.

Definition initial_Home : Home :=
  {| users := []; loading := false; output := Text "" |}.

Definition setUsers (us : list User) (h : Home) : Home :=
  {| users := us; loading := loading h; output := output h |}.

Definition setLoading (b : bool) (h : Home) : Home :=
  {| users := users h; loading := b; output := output h |}.

Definition setOutput (o : Output) (h : Home) : Home :=
  {| users := users h; loading := loading h; output := o |}.

(** [data.users || []] *)
Definition users_or_empty (data : payload) : list User :=
  match data with
  | OkUsers us => us
  | _ => []
  end.

(** The decimal digits of [Date.now()] inside a template literal. *)
Definition digits (z : Z) : string := NilZero.string_of_int (Z.to_int z).

Section Page.

(** The network the page talks to.  [fetch] stands for
    [await fetch(...)] followed by [await response.json()]: [inr data]
    when both resolve, [inl error] when one of them rejects. *)
Variable Net : Type.
Variable fetch : Fetch -> Net -> (string + payload) * Net.

(** The network together with the requests the page has sent so far,
    oldest first. *)
Record World : Type := mkWorld {
  net : Net;
  sent : list Fetch
}.

Definition await_fetch (f : Fetch) (w : World)
    : (string + payload) * World :=
  let (r, n) := fetch f (net w) in
  (r, {| net := n; sent := sent w ++ [f] |}).

Definition get_all_request : Fetch :=
  {| url := "/api/prisma/user/get-all"; method := "GET";
     sent_body := None |}.

Definition fetchAllUsers (h : Home) (w : World) : Home * World :=
  match await_fetch get_all_request w with
  | (inr data, w') => (setUsers (users_or_empty data) h, w')
  | (inl _, w') => (h, w')
  end.

Definition create_request (Date_now : Z) : Fetch :=
  {| url := "/api/prisma/user/create"; method := "POST";
     sent_body := Some (JObj
       [("email", JStr ("user" ++ digits Date_now ++ "@example.com"));
        ("name", JStr "John Doe")]) |}.

Definition handleCreateSingleUser (Date_now : Z) (h : Home) (w : World)
    : Home * World :=
  let h1 := setLoading true h in
  let h2 := setOutput (Text "Creating single user...") h1 in
  let (h4, w4) :=
    match await_fetch (create_request Date_now) w with
    | (inr data, w3) => fetchAllUsers (setOutput (Json data) h2) w3
    | (inl error, w3) => (setOutput (Text ("Error: " ++ error)) h2, w3)
    end in
  (setLoading false h4, w4).

(** [Date.now()] is read once per address. *)
Definition create_many_request (t1 t2 t3 : Z) : Fetch :=
  {| url := "/api/prisma/user/create-many"; method := "POST";
     sent_body := Some (JObj
       [("users", JArr
          [JObj [("email", JStr ("alice" ++ digits t1 ++ "@example.com"));
                 ("name", JStr "Alice")];
           JObj [("email", JStr ("bob" ++ digits t2 ++ "@example.com"));
                 ("name", JStr "Bob")];
           JObj [("email", JStr ("charlie" ++ digits t3 ++ "@example.com"));
                 ("name", JStr "Charlie")]])]) |}.

Definition handleCreateMany (t1 t2 t3 : Z) (h : Home) (w : World)
    : Home * World :=
  let h1 := setLoading true h in
  let h2 := setOutput (Text "Creating multiple users...") h1 in
  let (h4, w4) :=
    match await_fetch (create_many_request t1 t2 t3) w with
    | (inr data, w3) => fetchAllUsers (setOutput (Json data) h2) w3
    | (inl error, w3) => (setOutput (Text ("Error: " ++ error)) h2, w3)
    end in
  (setLoading false h4, w4).

Definition delete_request (user_id : Z) : Fetch :=
  {| url := "/api/prisma/user/delete"; method := "DELETE";
     sent_body := Some (JObj [("id", JNum user_id)]) |}.

Definition handleDeleteSingle (h : Home) (w : World) : Home * World :=
  match users h with
  | [] => (setOutput (Text "No users to delete") h, w)
  | first :: _ =>
      let h1 := setLoading true h in
      let h2 := setOutput (Text "Deleting single user...") h1 in
      let (h4, w4) :=
        match await_fetch (delete_request (id first)) w with
        | (inr data, w3) => fetchAllUsers (setOutput (Json data) h2) w3
        | (inl error, w3) => (setOutput (Text ("Error: " ++ error)) h2, w3)
        end in
      (setLoading false h4, w4)
  end.

Definition delete_many_request : Fetch :=
  {| url := "/api/prisma/user/delete-many"; method := "DELETE";
     sent_body := None |}.

Definition handleDeleteMany (h : Home) (w : World) : Home * World :=
  let h1 := setLoading true h in
  let h2 := setOutput (Text "Deleting all users...") h1 in
  let (h4, w4) :=
    match await_fetch delete_many_request w with
    | (inr data, w3) => fetchAllUsers (setOutput (Json data) h2) w3
    | (inl error, w3) => (setOutput (Text ("Error: " ++ error)) h2, w3)
    end in
  (setLoading false h4, w4).

End Page.

Arguments mkWorld {Net}.
Arguments net {Net}.
Arguments sent {Net}.

(** The network when the page talks to the handlers above: the database,
    the server's clock, and whether requests get through. *)
Record Server : Type := mkServer {
  database : Db;
  clock : Z;
  link : bool
}.

(** One request served; the clock moves on by a millisecond.  A request
    that does not get through, or that no route answers with JSON, makes
    the page's [await] reject. *)
Definition serve (f : Fetch) (s : Server) : (string + payload) * Server :=
  if negb (link s) then (inl "TypeError: Failed to fetch", s)
  else
    let answer (r : response * Db) : (string + payload) * Server :=
      (inr (body (fst r)),
       {| database := snd r; clock := clock s + 1; link := link s |}) in
    let at_route (path verb : string) : bool :=
      ((url f =? path) && (method f =? verb))%string in
    if at_route "/api/prisma/user/create" "POST" then
      answer (create_route.POST (sent_body f) (clock s) (database s))
    else if at_route "/api/prisma/user/create-many" "POST" then
      answer (create_many_route.POST (sent_body f) (clock s) (database s))
    else if at_route "/api/prisma/user/delete" "DELETE" then
      answer (delete_route.DELETE (sent_body f) (database s))
    else if at_route "/api/prisma/user/delete-many" "DELETE" then
      answer (delete_many_route.DELETE (database s))
    else if at_route "/api/prisma/user/get-all" "GET" then
      answer (get_all_route.GET (database s))
    else (inl "SyntaxError: Unexpected token", s).

(** ** The states the table can get into *)

(** What can happen to the database: one of the five handlers runs on some
    request at some instant, or the connection comes or goes. *)
Inductive event : Type :=
| EvCreate (request : option json) (now : Z)
| EvCreateMany (request : option json) (now : Z)
| EvDelete (request : option json)
| EvDeleteMany
| EvGetAll
| EvLink (up : bool).

Definition handle (ev : event) (db : Db) : Db :=
  match ev with
  | EvCreate request now => snd (create_route.POST request now db)
  | EvCreateMany request now => snd (create_many_route.POST request now db)
  | EvDelete request => snd (delete_route.DELETE request db)
  | EvDeleteMany => snd (delete_many_route.DELETE db)
  | EvGetAll => snd (get_all_route.GET db)
  | EvLink up => with_online db up
  end.

(** The states the handlers can bring the database to: they start from the
    empty table, behind a client that refuses what is not an integer where
    an [Int] is wanted, or behind one with any other reading of such
    values. *)
Inductive reachable : Db -> Prop :=
| reachable_empty : reachable empty_db
| reachable_client reading : reachable (with_coerce_id empty_db reading)
| reachable_step ev db : reachable db -> reachable (handle ev db).

(** The constraints of the schema on a table [rs] whose sequence stands at
    [next], and what the handlers add to them: no address twice, no [id]
    twice, every [id] already drawn from the sequence, no empty name. *)
Record table_ok (rs : list User) (next : Z) : Prop := mk_table_ok {
  unique_email : NoDup (map email rs);
  unique_id : NoDup (map id rs);
  ids_drawn : Forall (fun u => id u < next) rs;
  names_not_empty : Forall (fun u => name u <> Some "") rs
}.

Definition store_ok (db : Db) : Prop := table_ok (rows db) (seq db).

(** ** Vocabulary of the statements *)

(** The order list-all asks for: [u] is listed before [v] only if it is at
    least as new. *)
Definition newer_first (u v : User) : Prop := createdAt v <= createdAt u.

(** An entry of a create-many batch as the handler expects it: an object
    whose [email] is a string and whose [name] is a string or falsy (absent,
    null, ...). *)
Definition is_entry (j : json) : bool :=
  match j with
  | JObj fields =>
      match lookup "email" fields with
      | Some (JStr _) =>
          match lookup "name" fields with
          | Some (JStr _) => true
          | other => negb (truthy other)
          end
      | _ => false
      end
  | _ => false
  end.

(** The address of such an entry. *)
Definition entry_email (j : json) : string :=
  match j with
  | JObj fields =>
      match lookup "email" fields with
      | Some (JStr e) => e
      | _ => ""
      end
  | _ => ""
  end.

(** The name the client is given for such an entry, [user.name || null]. *)
Definition entry_name (j : json) : option string :=
  match j with
  | JObj fields =>
      match or_null (lookup "name" fields) with
      | JStr n => Some n
      | _ => None
      end
  | _ => None
  end.

Definition entry_row (j : json) : string * option string :=
  (entry_email j, entry_name j).

(** A pair handed to [createMany] whose name went through [|| null]. *)
Definition from_or_null (p : value * value) : Prop :=
  exists v, snd p = Some (or_null v).

(** [m] takes a well-formed table to a well-formed table, and what it
    returns satisfies [Q]. *)
Definition keeps {A} (m : M A) (Q : A -> Prop) : Prop :=
  forall db, store_ok db ->
    store_ok (fst (m db)) /\ forall a, snd (m db) = inr a -> Q a.

(** Was the request answered? *)
Definition resolved (r : string + payload) : bool :=
  match r with
  | inr _ => true
  | inl _ => false
  end.

(** From world [w] to world [w'] the page sent [f] and then, if [f] was
    answered, the list-all request; nothing else. *)
Definition sent_then_refreshed {Net : Type}
    (fetch : Fetch -> Net -> (string + payload) * Net)
    (f : Fetch) (w w' : World Net) : Prop :=
  sent w' =
    sent w ++ f :: (if resolved (fst (fetch f (net w)))
                    then [get_all_request] else []).

(** Unfolds a handler down to the client's elementary steps. *)
Ltac run_handler :=
  unfold create_route.POST, create_many_route.POST, delete_route.DELETE,
    delete_many_route.DELETE, get_all_route.GET, try_catch,
    prisma_user_create, prisma_user_delete, prisma_user_deleteMany,
    prisma_user_findMany, bind, request_json, prop, ret, throw, called,
    connect, get_rows, put_rows, with_rows, NextResponse_json;
  cbv beta iota.

(** ** Data of the examples *)

(** The batch of the specification's example. *)
Definition batch_a_a_b : json :=
  JObj [("users", JArr [JObj [("email", JStr "a@x.com")];
                        JObj [("email", JStr "a@x.com")];
                        JObj [("email", JStr "b@x.com")]])].

(** A table with one record. *)
Definition db_with_a : Db :=
  {| online := true; rows := [mkUser 1 "a@x.com" None 5 5]; seq := 2;
     log := [];
     coerce_id := refuse_others |}.

(** A table with two records. *)
Definition db_with_a_b : Db :=
  {| online := true;
     rows := [mkUser 1 "a@x.com" None 5 5;
              mkUser 2 "b@x.com" (Some "Bea") 6 6];
     seq := 3; log := [];
     coerce_id := refuse_others |}.

(** Three records created at 10 < 20 < 30, and a table that holds them in
    another order. *)
Definition user_t1 : User := mkUser 1 "a@x.com" None 10 10.
Definition user_t2 : User := mkUser 2 "b@x.com" None 20 20.
Definition user_t3 : User := mkUser 3 "c@x.com" None 30 30.

Definition db_shuffled : Db :=
  {| online := true; rows := [user_t2; user_t3; user_t1]; seq := 4;
     log := [];
     coerce_id := refuse_others |}.

(** The table after one create-one on the empty table. *)
Definition db_after_create : Db :=
  handle (EvCreate (Some (JObj [("email", JStr "a@x.com")])) 10) empty_db.

(** The table after the example batch on the empty table: two records of
    the same instant. *)
Definition db_after_batch : Db :=
  handle (EvCreateMany (Some batch_a_a_b) 10) empty_db.

(** A page on that table that lists the two in the other order. *)
Definition Home_b_a : Home :=
  {| users := [mkUser 3 "b@x.com" None 10 10; mkUser 1 "a@x.com" None 10 10];
     loading := false; output := Text "" |}.

(** A batch that repeats an address of [db_with_a] and repeats itself. *)
Definition batch_a_c_c : list json :=
  [JObj [("email", JStr "a@x.com"); ("name", JStr "Ann")];
   JObj [("email", JStr "c@x.com")];
   JObj [("name", JStr "Cy"); ("email", JStr "c@x.com")]].

(** A batch whose names are falsy. *)
Definition batch_blank_names : list json :=
  [JObj [("email", JStr "e@x.com"); ("name", JStr "")];
   JObj [("email", JStr "f@x.com"); ("name", JNull)]].

(** Request bodies. *)
Definition body_blank_email : list (string * json) :=
  [("name", JStr "Ann"); ("email", JStr "")].

Definition body_blank_name : list (string * json) :=
  [("email", JStr "d@x.com"); ("name", JStr "")].

Definition body_bea : list (string * json) :=
  [("email", JStr "b@x.com"); ("name", JStr "Bea")].

Definition body_d : list (string * json) := [("email", JStr "d@x.com")].

(** A server that has a user, and a page that lists that user. *)
Definition server_with_a : Server :=
  {| database := db_with_a; clock := 1000; link := true |}.

Definition Home_with_a : Home :=
  {| users := [mkUser 1 "a@x.com" None 5 5]; loading := false;
     output := Text "" |}.

(** ** The shared client: [src/lib/prisma.ts] *)

(** [process.env], as far as the module reads it. *)
Record ProcessEnv : Type := mkProcessEnv {
  DATABASE_URL : option string;
  NODE_ENV : option string
}.

(** Modelled from the spec: an instance of the data-access client, known
    by the order in which it was constructed in its process and by the
    connection string its adapter was given. *)
Record PrismaClient : Type := mkPrismaClient {
  instance : nat;
  connectionString : string
}.

(** The process the module is evaluated in: [global.prisma], and how many
    clients have been constructed so far. *)
Record Runtime : Type := mkRuntime {
  global_prisma : option PrismaClient;
  constructed : nat
}.

Definition fresh_runtime : Runtime :=
  {| global_prisma := None; constructed := 0 |}.

(** [process.env.DATABASE_URL || ''] *)
Definition or_empty (v : option string) : string :=
  match v with
  | Some s => if (s =? "")%string then "" else s
  | None => ""
  end.

Definition createPrismaClient (env : ProcessEnv) (rt : Runtime)
    : PrismaClient * Runtime :=
  let connectionString := or_empty (DATABASE_URL env) in
  ({| instance := constructed rt; connectionString := connectionString |},
   {| global_prisma := global_prisma rt;
      constructed := S (constructed rt) |}).

(** [process.env.NODE_ENV !== 'production'] *)
Definition not_production (env : ProcessEnv) : bool :=
  match NODE_ENV env with
  | Some s => negb (s =? "production")%string
  | None => true
  end.

(** One evaluation of the module: the value it exports as [prisma], and
    the process afterwards. *)
Definition prisma_module (env : ProcessEnv) (rt : Runtime)
    : PrismaClient * Runtime :=
  let (prisma, rt1) :=
    match global_prisma rt with
    | Some client => (client, rt)
    | None => createPrismaClient env rt
    end in
  if not_production env then
    (prisma, {| global_prisma := Some prisma;
                constructed := constructed rt1 |})
  else (prisma, rt1).

(** The module evaluated [n] times in a row, as on reloads: the exports in
    order, and the process afterwards. *)
Fixpoint reloads (env : ProcessEnv) (n : nat) (rt : Runtime)
    : list PrismaClient * Runtime :=
  match n with
  | O => ([], rt)
  | S n' =>
      let (prisma, rt1) := prisma_module env rt in
      let (rest, rt2) := reloads env n' rt1 in
      (prisma :: rest, rt2)
  end.

(** ** More vocabulary *)

(** The answer to an event, for the events that are requests. *)
Definition respond (ev : event) (db : Db) : option response :=
  match ev with
  | EvCreate request now => Some (fst (create_route.POST request now db))
  | EvCreateMany request now =>
      Some (fst (create_many_route.POST request now db))
  | EvDelete request => Some (fst (delete_route.DELETE request db))
  | EvDeleteMany => Some (fst (delete_many_route.DELETE db))
  | EvGetAll => Some (fst (get_all_route.GET db))
  | EvLink _ => None
  end.

Definition is_Err (b : payload) : bool :=
  match b with
  | Err _ => true
  | _ => false
  end.

(** A handler's failure on [db]: an error body with status 400 or 500, the
    rows and the connection as they were, no id given back to the
    sequence. *)
Definition fails_on (db : Db) (r : response * Db) : Prop :=
  (status (fst r) = 400 \/ status (fst r) = 500) /\
  is_Err (body (fst r)) = true /\
  rows (snd r) = rows db /\
  online (snd r) = online db /\
  seq db <= seq (snd r) /\
  (status (fst r) = 400 -> snd r = db).

(** A server whose link and database are up. *)
Definition server_up (s : Server) : Prop :=
  link s = true /\ online (database s) = true.

(** What the page lists after a refresh from [s]: the table, newest
    first. *)
Definition listing (s : Server) : list User :=
  order_by_createdAt desc (rows (database s)).

(** The server's answer to a request that a handler answered with [r]. *)
Definition served (s : Server) (r : response * Db)
    : (string + payload) * Server :=
  (inr (body (fst r)),
   {| database := snd r; clock := clock s + 1; link := link s |}).

(** The page lists what its server's table holds, newest first. *)
Definition lists_the_table (res : Home * World Server) : Prop :=
  users (fst res) = listing (net (snd res)).

(** ** Lemmas on the table *)

Arguments has_email : simpl never.

Lemma has_email_In e rs : has_email e rs = true <-> In e (map email rs).
Proof.
  unfold has_email. rewrite existsb_exists, in_map_iff. split.
  - intros [u [Hu He]]. apply String.eqb_eq in He. now exists u.
  - intros [u [He Hu]]. exists u. split; [assumption|].
    now apply String.eqb_eq.
Qed.

Lemma has_email_not_In e rs : has_email e rs = false <-> ~ In e (map email rs).
Proof.
  rewrite <- has_email_In. destruct (has_email e rs); split; congruence.
Qed.

Lemma table_ok_nil next : table_ok [] next.
Proof. split; constructor. Qed.

Lemma table_ok_next rs n m : table_ok rs n -> n <= m -> table_ok rs m.
Proof.
  intros [He Hi Hd Hn] Hle. split; try assumption.
  eapply Forall_impl; [|exact Hd]. cbn. intros u Hu. lia.
Qed.

Lemma NoDup_snoc {A} (l : list A) (a : A) :
  NoDup l -> ~ In a l -> NoDup (l ++ [a]).
Proof.
  intros Hl Ha. apply NoDup_app; [assumption | repeat constructor; auto | ].
  intros x Hx [<-|[]]. contradiction.
Qed.

Lemma table_ok_insert rs n u :
  table_ok rs n -> id u = n -> ~ In (email u) (map email rs) ->
  name u <> Some "" -> table_ok (rs ++ [u]) (n + 1).
Proof.
  intros [He Hi Hd Hn] Hid Hfresh Hname. split.
  - rewrite map_app. cbn. now apply NoDup_snoc.
  - rewrite map_app. cbn. apply NoDup_snoc; [assumption|].
    intros Hin. apply in_map_iff in Hin. destruct Hin as [v [Hv Hin]].
    rewrite Forall_forall in Hd. specialize (Hd v Hin). lia.
  - apply Forall_app. split.
    + eapply Forall_impl; [|exact Hd]. cbn. intros v Hv. lia.
    + repeat constructor. lia.
  - apply Forall_app. split; [assumption|]. now repeat constructor.
Qed.

Lemma unique_after_filter {K} (key : User -> K) keep rs :
  NoDup (map key rs) -> NoDup (map key (filter keep rs)).
Proof.
  intros H. induction rs as [|u rs IH]; cbn; [constructor|].
  cbn in H. apply NoDup_cons_iff in H. destruct H as [Hnotin Hnd].
  destruct (keep u); cbn; [|now apply IH].
  constructor; [|now apply IH].
  rewrite in_map_iff. intros [v [Hv Hin]]. apply filter_In in Hin.
  apply Hnotin. rewrite in_map_iff. exists v. tauto.
Qed.

Lemma Forall_filter {A} (P : A -> Prop) (p : A -> bool) (l : list A) :
  Forall P l -> Forall P (filter p l).
Proof.
  rewrite !Forall_forall. intros H x Hx. apply filter_In in Hx. apply H, Hx.
Qed.

Lemma table_ok_filter rs n p : table_ok rs n -> table_ok (filter p rs) n.
Proof.
  intros [He Hi Hd Hn]. split;
    auto using unique_after_filter, Forall_filter.
Qed.

(** ** Running a sequence of steps *)

Lemma bind_run {A B} (m : M A) (k : A -> M B) db db' a :
  m db = (db', inr a) -> bind m k db = k a db'.
Proof. intros H. unfold bind. now rewrite H. Qed.

Lemma connect_up db : online db = true -> connect db = (db, inr tt).
Proof. intros H. unfold connect. now rewrite H. Qed.

(** ** Lemmas on the client's calls *)

(** The state after [insert_row], and what it returns, in the two cases. *)
Lemma insert_row_fresh e n now oc db :
  has_email e (rows db) = false ->
  insert_row e n now oc db =
    ({| online := online db;
        rows := rows db ++ [mkUser (seq db) e n now now];
        seq := seq db + 1; log := log db;
        coerce_id := coerce_id db |},
     inr (Some (mkUser (seq db) e n now now))).
Proof.
  intros H. unfold insert_row, bind, nextval, get_rows, put_rows, with_rows.
  cbn. rewrite H. reflexivity.
Qed.

Lemma insert_row_taken e n now oc db :
  has_email e (rows db) = true ->
  insert_row e n now oc db =
    ({| online := online db; rows := rows db;
        seq := seq db + 1; log := log db;
        coerce_id := coerce_id db |},
     match oc with Some err => inl err | None => inr None end).
Proof.
  intros H. unfold insert_row, bind, nextval, get_rows. cbn. rewrite H.
  destruct oc; reflexivity.
Qed.

Lemma insert_row_ok e n now oc db :
  n <> Some "" -> store_ok db -> store_ok (fst (insert_row e n now oc db)).
Proof.
  intros Hn Hok. unfold store_ok in *.
  destruct (has_email e (rows db)) eqn:He.
  - rewrite insert_row_taken by assumption. cbn.
    apply table_ok_next with (n := seq db); [assumption | lia].
  - rewrite insert_row_fresh by assumption. cbn.
    apply table_ok_insert; auto. cbn. now apply has_email_not_In.
Qed.

Lemma insert_rows_ok data now oc : forall db,
  Forall (fun p => snd p <> Some "") data ->
  store_ok db -> store_ok (fst (insert_rows data now oc db)).
Proof.
  induction data as [|[e n] data IH]; intros db Hn Hok; cbn; [assumption|].
  inversion Hn as [|? ? Hn1 Hn2]; subst. cbn in Hn1.
  unfold bind.
  pose proof (insert_row_ok e n now oc db Hn1 Hok) as H1.
  destruct (insert_row e n now oc db) as [db1 [err|stored]]; cbn in *;
    [assumption|].
  specialize (IH db1 Hn2 H1).
  destruct (insert_rows data now oc db1) as [db2 [err|c]]; cbn in *;
    assumption.
Qed.

Lemma insert_rows_seq data now oc : forall db,
  seq db <= seq (fst (insert_rows data now oc db)).
Proof.
  induction data as [|[e n] data IH]; intros db; cbn; [lia|].
  unfold bind.
  assert (seq (fst (insert_row e n now oc db)) = seq db + 1) as H1.
  { destruct (has_email e (rows db)) eqn:He;
      [rewrite insert_row_taken | rewrite insert_row_fresh]; auto. }
  destruct (insert_row e n now oc db) as [db1 [err|stored]]; cbn in *;
    [lia|].
  specialize (IH db1).
  destruct (insert_rows data now oc db1) as [db2 [err|c]]; cbn in *; lia.
Qed.

(** The argument checks read nothing and change nothing. *)
Lemma email_arg_pure v db : fst (email_arg v db) = db.
Proof. destruct v as [[]|]; reflexivity. Qed.

Lemma name_arg_pure v db : fst (name_arg v db) = db.
Proof. destruct v as [[]|]; reflexivity. Qed.

Lemma id_arg_pure v db : fst (id_arg v db) = db.
Proof.
  destruct v as [j|]; [|reflexivity].
  unfold id_arg. now destruct (id_read db j).
Qed.

Lemma prop_pure j k db : fst (prop j k db) = db.
Proof. destruct j; reflexivity. Qed.

(** [name || null] is never the empty string, so the client never gets
    one. *)
Lemma or_null_not_empty v : or_null v <> JStr "".
Proof.
  destruct v as [[| b | z | s | l | fs|]|]; cbn; try discriminate.
  - destruct b; discriminate.
  - destruct (z =? 0); discriminate.
  - destruct (String.eqb_spec s ""); cbn; [discriminate|congruence].
Qed.

Lemma name_arg_or_null v db n :
  snd (name_arg (Some (or_null v)) db) = inr n -> n <> Some "".
Proof.
  pose proof (or_null_not_empty v) as H.
  destruct (or_null v); cbn; intros E; inversion E; subst; congruence.
Qed.

Lemma check_many_spec data : forall db,
  fst (check_many data db) = db /\
  forall checked, snd (check_many data db) = inr checked ->
    Forall from_or_null data ->
    Forall (fun p => snd p <> Some "") checked.
Proof.
  induction data as [|[e n] data IH]; intros db; cbn.
  - split; [reflexivity|]. intros checked E _. inversion E. constructor.
  - unfold bind.
    pose proof (email_arg_pure e db) as He.
    destruct (email_arg e db) as [db1 [err|e']]; cbn in He; subst db1;
      [split; [reflexivity | discriminate]|].
    pose proof (name_arg_pure n db) as Hn.
    pose proof (name_arg_or_null) as Hne.
    destruct (name_arg n db) as [db1 [err|n']] eqn:En; cbn in Hn; subst db1;
      [split; [reflexivity | discriminate]|].
    destruct (IH db) as [IH1 IH2].
    destruct (check_many data db) as [db1 [err|rest]]; cbn in IH1, IH2 |- *;
      subst db1; [split; [reflexivity | discriminate]|].
    split; [reflexivity|].
    intros checked E Hshape. inversion E; subst.
    inversion Hshape as [|? ? [v Hv] Hrest]; subst. cbn in Hv. subst n.
    constructor; [cbn | now apply IH2].
    apply (Hne v db). now rewrite En.
Qed.

Lemma entry_spec j db :
  create_many_route.entry j db =
    (db, match j with
         | JNull => inl TypeError
         | JObj fields =>
             inr (lookup "email" fields,
                  Some (or_null (lookup "name" fields)))
         | _ => inr (None, Some (or_null None))
         end).
Proof. destruct j; reflexivity. Qed.

Lemma mapM_entry_spec items : forall db,
  fst (mapM create_many_route.entry items db) = db /\
  forall data, snd (mapM create_many_route.entry items db) = inr data ->
    Forall from_or_null data.
Proof.
  induction items as [|j items IH]; intros db; cbn [mapM].
  - split; [reflexivity|]. intros data E. inversion E. constructor.
  - unfold bind. rewrite entry_spec. destruct (IH db) as [IH1 IH2].
    assert (forall p, from_or_null p ->
      fst (let (db1, s) := mapM create_many_route.entry items db in
           match s with
           | inl e => (db1, inl e)
           | inr bs => ret (p :: bs) db1
           end) = db /\
      forall data,
        snd (let (db1, s) := mapM create_many_route.entry items db in
             match s with
             | inl e => (db1, inl e)
             | inr bs => ret (p :: bs) db1
             end) = inr data -> Forall from_or_null data) as Hcons.
    { intros p Hp.
      destruct (mapM create_many_route.entry items db) as [db1 [err|rest]];
        cbn in IH1, IH2 |- *; subst db1;
        (split; [reflexivity|]); [discriminate|].
      intros data E. inversion E; subst. constructor; auto. }
    destruct j; try (apply Hcons; eexists; reflexivity).
    cbn. split; [reflexivity | discriminate].
Qed.

(** Each call of the client keeps the table well formed. *)
Lemma store_ok_frame db db' :
  rows db' = rows db -> seq db <= seq db' -> store_ok db -> store_ok db'.
Proof.
  unfold store_ok. intros -> Hle H. eapply table_ok_next; eauto.
Qed.

Lemma prisma_user_create_ok e v now db :
  store_ok db ->
  store_ok (fst (prisma_user_create e (Some (or_null v)) now db)).
Proof.
  intros Hok. unfold prisma_user_create, bind, called. cbv beta iota.
  set (db0 := {| online := online db; rows := rows db; seq := seq db;
                 log := QCreate :: log db;
                 coerce_id := coerce_id db |}).
  assert (store_ok db0) as Hok0 by exact Hok.
  pose proof (email_arg_pure e db0) as He.
  destruct (email_arg e db0) as [db1 [err|e']]; cbn in He; subst db1;
    [exact Hok0|].
  pose proof (name_arg_pure (Some (or_null v)) db0) as Hn.
  pose proof (name_arg_or_null v db0) as Hne.
  destruct (name_arg (Some (or_null v)) db0) as [db1 [err|n]];
    cbn in Hn; subst db1; [exact Hok0|].
  unfold connect. destruct (online db0); [|exact Hok0].
  pose proof (insert_row_ok e' n now (Some (PrismaClientError P2002)) db0
                (Hne n eq_refl) Hok0) as H1.
  destruct (insert_row e' n now _ db0) as [db1 [err|[u|]]]; exact H1.
Qed.

Lemma prisma_user_createMany_ok data skip now db :
  Forall from_or_null data ->
  store_ok db ->
  store_ok (fst (prisma_user_createMany data skip now db)).
Proof.
  intros Hshape Hok. unfold prisma_user_createMany, bind, called. cbv beta iota.
  set (db0 := {| online := online db; rows := rows db; seq := seq db;
                 log := QCreateMany :: log db;
                 coerce_id := coerce_id db |}).
  assert (store_ok db0) as Hok0 by exact Hok.
  destruct (check_many_spec data db0) as [H1 H2].
  destruct (check_many data db0) as [db1 [err|checked]]; cbn in H1;
    subst db1; [exact Hok0|].
  specialize (H2 checked eq_refl Hshape).
  unfold connect. destruct (online db0); [|exact Hok0].
  unfold statement.
  set (oc := if skip then None else Some (PrismaClientError P2002)).
  pose proof (insert_rows_ok checked now oc db0 H2 Hok0) as H3.
  pose proof (insert_rows_seq checked now oc db0) as H4.
  destruct (insert_rows checked now oc db0) as [db1 [err|c]]; cbn in *;
    [|exact H3].
  apply store_ok_frame with (db := db0); auto.
Qed.

Lemma prisma_user_delete_ok v db :
  store_ok db -> store_ok (fst (prisma_user_delete v db)).
Proof.
  intros Hok. unfold prisma_user_delete, bind, called. cbv beta iota.
  set (db0 := {| online := online db; rows := rows db; seq := seq db;
                 log := QDelete :: log db;
                 coerce_id := coerce_id db |}).
  assert (store_ok db0) as Hok0 by exact Hok.
  pose proof (id_arg_pure v db0) as Hi.
  destruct (id_arg v db0) as [db1 [err|i]]; cbn in Hi; subst db1;
    [exact Hok0|].
  unfold connect. destruct (online db0); [|exact Hok0].
  unfold get_rows. destruct (find _ (rows db0)); cbn; [|exact Hok0].
  now apply table_ok_filter.
Qed.

Lemma prisma_user_deleteMany_ok db :
  store_ok db -> store_ok (fst (prisma_user_deleteMany db)).
Proof.
  intros Hok. unfold prisma_user_deleteMany, bind, called, connect. cbv beta iota. cbn [online].
  destruct (online db); cbn; [apply table_ok_nil | exact Hok].
Qed.

Lemma prisma_user_findMany_ok o db :
  store_ok db -> store_ok (fst (prisma_user_findMany o db)).
Proof.
  intros Hok. unfold prisma_user_findMany, bind, called, connect. cbv beta iota. cbn [online].
  destruct (online db); cbn; exact Hok.
Qed.

(** ** A small logic for "this computation keeps the table well formed" *)

Lemma keeps_ret {A} (a : A) (Q : A -> Prop) : Q a -> keeps (ret a) Q.
Proof.
  intros H db Hok. split; [exact Hok|].
  intros b E. cbn in E. inversion E. subst. exact H.
Qed.

Lemma keeps_throw {A} e (Q : A -> Prop) : keeps (throw e) Q.
Proof. intros db Hok. split; [exact Hok | discriminate]. Qed.

Lemma keeps_bind {A B} (m : M A) (k : A -> M B) Q R :
  keeps m Q -> (forall a, Q a -> keeps (k a) R) -> keeps (bind m k) R.
Proof.
  intros Hm Hk db Hok. unfold bind. destruct (Hm db Hok) as [H1 H2].
  destruct (m db) as [db1 [err|a]]; cbn in H1, H2 |- *.
  - split; [exact H1 | discriminate].
  - exact (Hk a (H2 a eq_refl) db1 H1).
Qed.


Lemma keeps_pure {A} (m : M A) :
  (forall db, fst (m db) = db) -> keeps m (fun _ => True).
Proof. intros H db Hok. rewrite H. split; auto. Qed.

Lemma keeps_request_json request : keeps (request_json request) (fun _ => True).
Proof. destruct request; [now apply keeps_ret | apply keeps_throw]. Qed.

Lemma keeps_prop j k : keeps (prop j k) (fun _ => True).
Proof. apply keeps_pure. intros db. apply prop_pure. Qed.

Lemma keeps_state {A} (m : M A) :
  (forall db, store_ok db -> store_ok (fst (m db))) -> keeps m (fun _ => True).
Proof. intros H db Hok. split; auto. Qed.

Lemma try_catch_state block db : snd (try_catch block db) = fst (block db).
Proof. unfold try_catch. now destruct (block db) as [db1 [err|r]]. Qed.

Lemma kept_by_try_catch block db :
  keeps block (fun _ => True) -> store_ok db ->
  store_ok (snd (try_catch block db)).
Proof. intros H Hok. rewrite try_catch_state. now apply H. Qed.

Lemma create_POST_ok request now db :
  store_ok db -> store_ok (snd (create_route.POST request now db)).
Proof.
  apply kept_by_try_catch.
  eapply keeps_bind; [apply keeps_request_json | intros parsed _].
  eapply keeps_bind; [apply keeps_prop | intros e _].
  eapply keeps_bind; [apply keeps_prop | intros n _].
  destruct (negb (truthy e)); [now apply keeps_ret|].
  eapply keeps_bind; [|intros u _; now apply keeps_ret].
  apply keeps_state. intros db1. apply prisma_user_create_ok.
Qed.

Lemma create_many_POST_ok request now db :
  store_ok db -> store_ok (snd (create_many_route.POST request now db)).
Proof.
  apply kept_by_try_catch.
  eapply keeps_bind; [apply keeps_request_json | intros parsed _].
  eapply keeps_bind; [apply keeps_prop | intros us _].
  destruct (_ || _); [now apply keeps_ret|].
  eapply keeps_bind with (Q := Forall from_or_null).
  - intros db1 Hok. destruct (mapM_entry_spec (elements us) db1) as [H1 H2].
    rewrite H1. split; assumption.
  - intros data Hdata.
    eapply keeps_bind; [|intros c _; now apply keeps_ret].
    apply keeps_state. intros db1. now apply prisma_user_createMany_ok.
Qed.

Lemma delete_DELETE_ok request db :
  store_ok db -> store_ok (snd (delete_route.DELETE request db)).
Proof.
  apply kept_by_try_catch.
  eapply keeps_bind; [apply keeps_request_json | intros parsed _].
  eapply keeps_bind; [apply keeps_prop | intros i _].
  destruct (negb (truthy i)); [now apply keeps_ret|].
  eapply keeps_bind; [|intros u _; now apply keeps_ret].
  apply keeps_state. intros db1. apply prisma_user_delete_ok.
Qed.

Lemma delete_many_DELETE_ok db :
  store_ok db -> store_ok (snd (delete_many_route.DELETE db)).
Proof.
  apply kept_by_try_catch.
  eapply keeps_bind; [|intros c _; now apply keeps_ret].
  apply keeps_state. apply prisma_user_deleteMany_ok.
Qed.

Lemma get_all_GET_ok db :
  store_ok db -> store_ok (snd (get_all_route.GET db)).
Proof.
  apply kept_by_try_catch.
  eapply keeps_bind; [|intros c _; now apply keeps_ret].
  apply keeps_state. apply prisma_user_findMany_ok.
Qed.

Lemma handle_ok ev db : store_ok db -> store_ok (handle ev db).
Proof.
  destruct ev; cbn [handle];
    auto using create_POST_ok, create_many_POST_ok, delete_DELETE_ok,
               delete_many_DELETE_ok, get_all_GET_ok.
Qed.

Lemma reachable_ok db : reachable db -> store_ok db.
Proof.
  induction 1 as [|reading|ev db Hr IH];
    [apply table_ok_nil | apply table_ok_nil | now apply handle_ok].
Qed.

(** ** The handlers on particular shapes of request *)

Lemma find_id_none z rs :
  (forall u, In u rs -> id u <> z) -> find (fun u => id u =? z) rs = None.
Proof.
  intros H. destruct (find _ rs) as [u|] eqn:E; [|reflexivity].
  apply find_some in E. destruct E as [Hin Heq].
  apply Z.eqb_eq in Heq. now apply H in Hin.
Qed.

(** C3: a create-one request whose body has no [email], or an empty one,
    is answered with status 400 and the validation error, and the handler
    does not touch the data-access client: the database, the log of client
    calls included, is as it was. *)
Theorem create_without_email_is_rejected
    (fields : list (string * json)) (now : Z) (db : Db) :
  lookup "email" fields = None \/ lookup "email" fields = Some (JStr "") ->
  let r := create_route.POST (Some (JObj fields)) now db in
  status (fst r) = 400 /\
  body (fst r) = Err "Email is required" /\
  log (snd r) = log db /\
  snd r = db.
Proof.
  intros H. run_handler. destruct H as [-> | ->]; cbn; auto.
Qed.

Lemma create_without_email_is_rejected_witness :
  (lookup "email" body_blank_email = None \/
   lookup "email" body_blank_email = Some (JStr "")) /\
  status (fst (create_route.POST (Some (JObj body_blank_email)) 11 db_with_a))
    = 400 /\
  snd (create_route.POST (Some (JObj body_blank_email)) 11 db_with_a)
    = db_with_a.
Proof.
  pose proof (create_without_email_is_rejected body_blank_email 11 db_with_a
                (or_intror eq_refl)) as H.
  exact (conj (or_intror eq_refl)
           (conj (proj1 H) (proj2 (proj2 (proj2 H))))).
Defined.

(** C9: a delete-one request whose [id] is present but falsy (0, null, the
    empty string, false) is answered with status 400 and
    'User ID is required'; the data-access client is not called, so the
    answer is the one for an absent id and not a not-found error. *)
Theorem delete_falsy_id_is_rejected
    (fields : list (string * json)) (v : json) (db : Db) :
  lookup "id" fields = Some v ->
  truthy (Some v) = false ->
  let r := delete_route.DELETE (Some (JObj fields)) db in
  status (fst r) = 400 /\
  body (fst r) = Err "User ID is required" /\
  log (snd r) = log db /\
  snd r = db.
Proof.
  intros Hid Hv. run_handler. rewrite Hid, Hv. cbn. auto.
Qed.

Lemma delete_falsy_id_is_rejected_witness :
  truthy (Some (JNum 0)) = false /\
  status (fst (delete_route.DELETE (Some (JObj [("id", JNum 0)])) db_with_a))
    = 400 /\
  snd (delete_route.DELETE (Some (JObj [("id", JNum 0)])) db_with_a)
    = db_with_a.
Proof.
  pose proof (delete_falsy_id_is_rejected [("id", JNum 0)] (JNum 0)
                db_with_a eq_refl eq_refl) as H.
  exact (conj eq_refl (conj (proj1 H) (proj2 (proj2 (proj2 H))))).
Defined.

(** Delete-one on a truthy [id]: the client is called, and what happens
    next hangs on the Int it takes the value for, on the connection, and on
    whether a row has that id. *)
Lemma delete_DELETE_truthy fields v db :
  lookup "id" fields = Some v ->
  truthy (Some v) = true ->
  delete_route.DELETE (Some (JObj fields)) db =
    match id_read db v with
    | None =>
        ({| status := 500;
            body := Err (message (PrismaClientError ValidationError)) |},
         {| online := online db; rows := rows db; seq := seq db;
            log := QDelete :: log db; coerce_id := coerce_id db |})
    | Some z =>
        if online db then
          match find (fun u => id u =? z) (rows db) with
          | Some u =>
              ({| status := 200;
                  body := OkUser "User deleted successfully" u |},
               {| online := online db;
                  rows := filter (fun u => negb (id u =? z)) (rows db);
                  seq := seq db; log := QDelete :: log db;
                  coerce_id := coerce_id db |})
          | None =>
              ({| status := 500;
                  body := Err (message (PrismaClientError P2025)) |},
               {| online := online db; rows := rows db; seq := seq db;
                  log := QDelete :: log db;
                  coerce_id := coerce_id db |})
          end
        else
          ({| status := 500;
              body := Err (message (PrismaClientError P1001)) |},
           {| online := online db; rows := rows db; seq := seq db;
              log := QDelete :: log db; coerce_id := coerce_id db |})
    end.
Proof.
  intros Hid Hv. run_handler. rewrite Hid, Hv. cbn [negb].
  unfold id_arg. cbv beta iota.
  change (id_read {| online := online db; rows := rows db; seq := seq db;
                     log := QDelete :: log db;
                     coerce_id := coerce_id db |} v)
    with (id_read db v).
  destruct (id_read db v) as [z|]; [|reflexivity].
  cbn [online]. destruct (online db); [|reflexivity].
  cbn [rows]. destruct (find (fun u => id u =? z) (rows db)); reflexivity.
Qed.

(** The input on which the claim about an unmatched id fails: the id 0 is
    present and is the id of no record, and the answer is the 400 of the
    handler's own check, not a 500. *)
Lemma delete_zero_id_is_400_not_500 :
  lookup "id" [("id", JNum 0)] = Some (JNum 0) /\
  (forall u, In u (rows db_with_a) -> id u <> 0) /\
  fst (delete_route.DELETE (Some (JObj [("id", JNum 0)])) db_with_a)
    = {| status := 400; body := Err "User ID is required" |} /\
  status (fst (delete_route.DELETE (Some (JObj [("id", JNum 0)])) db_with_a))
    <> 500.
Proof.
  split; [reflexivity|]. split.
  - intros u [<-|[]]. discriminate.
  - split; [reflexivity | discriminate].
Qed.

(** C5, as the handler has it: a delete-one request whose [id] is truthy
    and is taken by the data layer for the id of no record gets a failure
    answer with the generic status 500, after a call on the client, and
    the table is unchanged, so the number of records is what it was.  (An
    id that is present but falsy does not get this far: it is answered 400
    by the handler's own check.) *)
Theorem delete_unknown_id_fails
    (fields : list (string * json)) (v : json) (db : Db) :
  lookup "id" fields = Some v ->
  truthy (Some v) = true ->
  (forall u, In u (rows db) -> id_read db v <> Some (id u)) ->
  let r := delete_route.DELETE (Some (JObj fields)) db in
  status (fst r) = 500 /\
  (exists error, body (fst r) = Err error) /\
  log (snd r) = QDelete :: log db /\
  rows (snd r) = rows db /\
  List.length (rows (snd r)) = List.length (rows db).
Proof.
  intros Hid Hv Hno. cbv zeta.
  rewrite (delete_DELETE_truthy fields v db Hid Hv).
  destruct (id_read db v) as [z|] eqn:Hread;
    [|cbn; repeat split; eauto].
  destruct (online db); [|cbn; repeat split; eauto].
  rewrite find_id_none; [cbn; repeat split; eauto|].
  intros u Hu E. apply (Hno u Hu). now subst.
Qed.

Lemma delete_unknown_id_fails_witness :
  truthy (Some (JNum 7)) = true /\
  status (fst (delete_route.DELETE (Some (JObj [("id", JNum 7)])) db_with_a))
    = 500 /\
  rows (snd (delete_route.DELETE (Some (JObj [("id", JNum 7)])) db_with_a))
    = rows db_with_a.
Proof.
  assert (forall u, In u (rows db_with_a) ->
            id_read db_with_a (JNum 7) <> Some (id u)) as Hno.
  { intros u [<-|[]]. discriminate. }
  pose proof (delete_unknown_id_fails [("id", JNum 7)] (JNum 7) db_with_a
                eq_refl eq_refl Hno) as H.
  exact (conj eq_refl (conj (proj1 H) (proj1 (proj2 (proj2 (proj2 H)))))).
Defined.

(** One request on two clients.  [{ id: 1.5 }] is truthy, so the handler
    hands it to the client.  On a client that reads it at the integer below,
    record 1 is deleted and the answer is 200; on a client that refuses it,
    the answer is 500 and the table is as it was. *)
Example delete_fraction_id_hangs_on_the_client :
  truthy (Some (JFrac 1 1 1)) = true /\
  delete_route.DELETE (Some (JObj [("id", JFrac 1 1 1)]))
    (with_coerce_id db_with_a integer_below)
    = ({| status := 200;
          body := OkUser "User deleted successfully"
                    (mkUser 1 "a@x.com" None 5 5) |},
       {| online := true; rows := []; seq := 2; log := [QDelete];
          coerce_id := integer_below |}) /\
  status (fst (delete_route.DELETE (Some (JObj [("id", JFrac 1 1 1)]))
                 db_with_a)) = 500 /\
  rows (snd (delete_route.DELETE (Some (JObj [("id", JFrac 1 1 1)]))
               db_with_a)) = rows db_with_a.
Proof. repeat split; reflexivity. Qed.

(** C6: on a table of N records delete-all removes them all and answers
    success with count N; run again on the table it emptied it answers
    success with count 0; and it answers a failure only when the database
    cannot be reached. *)
Theorem delete_all_reports_count (db : Db) :
  let r := delete_many_route.DELETE db in
  let r' := delete_many_route.DELETE (snd r) in
  (online db = true ->
     fst r = {| status := 200;
                body := OkCount "All users deleted successfully"
                          (Z.of_nat (List.length (rows db))) |} /\
     rows (snd r) = [] /\
     fst r' = {| status := 200;
                 body := OkCount "All users deleted successfully" 0 |} /\
     rows (snd r') = []) /\
  (status (fst r) <> 200 -> online db = false).
Proof.
  run_handler. cbn [online].
  destruct (online db) eqn:Hon; cbn; split; auto; congruence.
Qed.

Lemma delete_all_reports_count_witness :
  online db_with_a_b = true /\
  fst (delete_many_route.DELETE db_with_a_b) =
    {| status := 200;
       body := OkCount "All users deleted successfully" 2 |} /\
  rows (snd (delete_many_route.DELETE db_with_a_b)) = [].
Proof.
  pose proof (proj1 (delete_all_reports_count db_with_a_b) eq_refl) as H.
  exact (conj eq_refl (conj (proj1 H) (proj1 (proj2 H)))).
Defined.

(** ** Ordering by [createdAt] *)

Lemma place_perm o u l : Permutation (u :: l) (place o u l).
Proof.
  induction l as [|v l IH]; cbn; [reflexivity|].
  destruct (before o u v); [reflexivity|].
  rewrite perm_swap. now constructor.
Qed.

Lemma order_by_createdAt_perm o rs : Permutation rs (order_by_createdAt o rs).
Proof.
  induction rs as [|u rs IH]; cbn; [constructor|].
  rewrite <- place_perm. now constructor.
Qed.

Lemma place_desc_sorted u l :
  StronglySorted newer_first l -> StronglySorted newer_first (place desc u l).
Proof.
  induction l as [|v l IH]; cbn; intros Hs.
  - repeat constructor.
  - inversion Hs as [|? ? Hl Hv]; subst.
    destruct (Z.leb_spec (createdAt v) (createdAt u)) as [Hle|Hlt].
    + constructor; [assumption|]. constructor; [exact Hle|].
      eapply Forall_impl; [|exact Hv]. unfold newer_first. intros w Hw. lia.
    + constructor; [now apply IH|].
      eapply Permutation_Forall; [apply place_perm|].
      constructor; [unfold newer_first; lia | assumption].
Qed.

Lemma order_by_createdAt_desc_sorted rs :
  StronglySorted newer_first (order_by_createdAt desc rs).
Proof.
  induction rs as [|u rs IH]; cbn; [constructor | now apply place_desc_sorted].
Qed.

(** A list that is newest first and has the members of a list that is
    strictly newest first is that list. *)
Lemma newest_first_unique : forall l' l,
  StronglySorted (fun u v => createdAt v < createdAt u) l' ->
  StronglySorted newer_first l ->
  Permutation l l' -> l = l'.
Proof.
  induction l' as [|a l' IH]; intros l Hs' Hs Hp.
  - apply Permutation_sym in Hp. now apply Permutation_nil in Hp.
  - destruct l as [|b l]; [apply Permutation_nil in Hp; discriminate|].
    inversion Hs' as [|? ? Hs'' Ha]; subst.
    inversion Hs as [|? ? Hs0 Hb]; subst.
    assert (b = a) as ->.
    { assert (In b (a :: l')) as Hin
        by (eapply Permutation_in; [exact Hp | now left]).
      destruct Hin as [E|Hin]; [now symmetry|].
      rewrite Forall_forall in Ha. specialize (Ha b Hin). cbn in Ha.
      assert (In a (b :: l)) as Hin'
        by (eapply Permutation_in; [symmetry; exact Hp | now left]).
      destruct Hin' as [E|Hin']; [now symmetry|].
      rewrite Forall_forall in Hb. specialize (Hb a Hin').
      unfold newer_first in Hb. lia. }
    f_equal. apply IH; auto. eapply Permutation_cons_inv. exact Hp.
Qed.

(** C7: list-all returns every record, newest first by [createdAt]; three
    records created at t1 < t2 < t3 come back as [t3, t2, t1] whatever their
    order in the table; an empty table gives success with an empty list. *)
Theorem get_all_lists_newest_first (db : Db) :
  online db = true ->
  exists us,
    fst (get_all_route.GET db) = {| status := 200; body := OkUsers us |} /\
    rows (snd (get_all_route.GET db)) = rows db /\
    Permutation (rows db) us /\
    StronglySorted (fun u v => createdAt v <= createdAt u) us /\
    (forall r1 r2 r3,
       createdAt r1 < createdAt r2 -> createdAt r2 < createdAt r3 ->
       Permutation (rows db) [r1; r2; r3] -> us = [r3; r2; r1]) /\
    (rows db = [] -> us = []).
Proof.
  intros Hon. exists (order_by_createdAt desc (rows db)).
  run_handler. cbn [online]. rewrite Hon. cbn [fst snd rows].
  split; [reflexivity|]. split; [reflexivity|].
  split; [apply order_by_createdAt_perm|].
  split; [apply order_by_createdAt_desc_sorted|].
  split.
  - intros r1 r2 r3 H12 H23 Hp. apply newest_first_unique.
    + repeat constructor; lia.
    + apply order_by_createdAt_desc_sorted.
    + rewrite <- order_by_createdAt_perm. rewrite Hp.
      apply Permutation_rev with (l := [r1; r2; r3]).
  - intros ->. reflexivity.
Qed.

Lemma get_all_lists_newest_first_witness :
  online db_shuffled = true /\
  fst (get_all_route.GET db_shuffled) =
    {| status := 200; body := OkUsers [user_t3; user_t2; user_t1] |}.
Proof.
  split; [reflexivity|].
  destruct (get_all_lists_newest_first db_shuffled eq_refl)
    as [us [Hresp [_ [_ [_ [H3 _]]]]]].
  rewrite Hresp. f_equal. f_equal.
  apply (H3 user_t1 user_t2 user_t3); cbn; try lia.
  apply Permutation_sym.
  apply perm_trans with (l' := [user_t2; user_t1; user_t3]).
  - apply perm_swap.
  - apply perm_skip. apply perm_swap.
Defined.

(** ** Create-one on a well-formed body *)

Lemma truthy_string s : s <> "" -> truthy (Some (JStr s)) = true.
Proof. intros H. cbn. now destruct (String.eqb_spec s ""). Qed.

Lemma name_arg_falsy v db :
  truthy v = false -> name_arg (Some (or_null v)) db = (db, inr None).
Proof.
  intros H. unfold or_null. rewrite H. now destruct v.
Qed.

Lemma name_arg_string n db :
  name_arg (Some (or_null (Some (JStr n)))) db =
    (db, inr (if (n =? "")%string then None else Some n)).
Proof.
  unfold or_null, truthy. now destruct (n =? "")%string.
Qed.

(** A fresh, non-empty address and a name the client accepts: the row is
    stored and returned. *)
Lemma create_POST_stores fields e n now db :
  lookup "email" fields = Some (JStr e) -> e <> "" ->
  (forall d, name_arg (Some (or_null (lookup "name" fields))) d
             = (d, inr n)) ->
  online db = true ->
  has_email e (rows db) = false ->
  create_route.POST (Some (JObj fields)) now db =
    ({| status := 200;
        body := OkUser "User created successfully"
                  (mkUser (seq db) e n now now) |},
     {| online := online db;
        rows := rows db ++ [mkUser (seq db) e n now now];
        seq := seq db + 1;
        log := QCreate :: log db;
        coerce_id := coerce_id db |}).
Proof.
  intros He Hne Hn Hon Hfresh. run_handler.
  rewrite He, (truthy_string e Hne). cbv beta iota. cbn [negb email_arg].
  unfold ret. rewrite Hn. cbn [online]. rewrite Hon.
  rewrite insert_row_fresh by exact Hfresh. reflexivity.
Qed.

(** An address that is taken: the answer is a failure, whatever else the
    body holds, and the table keeps its rows. *)
Lemma create_POST_taken fields e now db :
  lookup "email" fields = Some (JStr e) -> e <> "" ->
  has_email e (rows db) = true ->
  let r := create_route.POST (Some (JObj fields)) now db in
  status (fst r) = 500 /\
  (exists error, body (fst r) = Err error) /\
  rows (snd r) = rows db.
Proof.
  intros He Hne Htaken. run_handler.
  rewrite He, (truthy_string e Hne). cbv beta iota. cbn [negb email_arg].
  unfold ret.
  set (db0 := {| online := online db; rows := rows db; seq := seq db;
                 log := QCreate :: log db;
                 coerce_id := coerce_id db |}).
  pose proof (name_arg_pure (Some (or_null (lookup "name" fields))) db0) as Hp.
  destruct (name_arg _ db0) as [db1 [err|n]]; cbn in Hp; subst db1;
    [cbn; eauto|].
  destruct (online db0); [|cbn; eauto].
  rewrite insert_row_taken by exact Htaken. cbn. eauto.
Qed.

Lemma filter_perm {A} (p : A -> bool) (l l' : list A) :
  Permutation l l' -> Permutation (filter p l) (filter p l').
Proof.
  induction 1 as [|a l l' H IH|a b l|l l' l'' H1 IH1 H2 IH2]; cbn.
  - constructor.
  - destruct (p a); [now constructor | assumption].
  - destruct (p a), (p b); try reflexivity. apply perm_swap.
  - now transitivity (filter p l').
Qed.

Lemma filter_email_absent e rs :
  has_email e rs = false -> filter (fun v => (email v =? e)%string) rs = [].
Proof.
  unfold has_email. induction rs as [|u rs IH]; cbn; [reflexivity|].
  destruct (email u =? e)%string; cbn; [discriminate | exact IH].
Qed.

(** C4, as the handler has it: a create-one request with a non-empty
    address that is not in the table, and a name that is absent or a
    string, inserts exactly one record and answers success with that record.
    Its email is the input; its name is the input when that is a non-empty
    string and null when the name is absent or the empty string; its id is
    one no record of the table has; createdAt and updatedAt are the instant
    of the insert.  A list-all that follows has exactly one record with
    that address. *)
Theorem create_returns_stored_record
    (fields : list (string * json)) (e : string) (now : Z) (db : Db) :
  reachable db ->
  online db = true ->
  lookup "email" fields = Some (JStr e) ->
  e <> "" ->
  ~ In e (map email (rows db)) ->
  (lookup "name" fields = None \/
   exists n, lookup "name" fields = Some (JStr n)) ->
  let r := create_route.POST (Some (JObj fields)) now db in
  exists u,
    fst r = {| status := 200;
               body := OkUser "User created successfully" u |} /\
    rows (snd r) = rows db ++ [u] /\
    email u = e /\
    (lookup "name" fields = None -> name u = None) /\
    (forall n, lookup "name" fields = Some (JStr n) ->
       name u = if (n =? "")%string then None else Some n) /\
    (forall v, In v (rows db) -> id v <> id u) /\
    createdAt u = now /\ updatedAt u = now /\
    exists us,
      fst (get_all_route.GET (snd r)) =
        {| status := 200; body := OkUsers us |} /\
      filter (fun v => (email v =? e)%string) us = [u].
Proof.
  intros Hreach Hon He Hne Hfresh Hname. cbv zeta.
  apply has_email_not_In in Hfresh.
  assert (exists n,
    (forall d, name_arg (Some (or_null (lookup "name" fields))) d
               = (d, inr n)) /\
    (lookup "name" fields = None -> n = None) /\
    (forall s, lookup "name" fields = Some (JStr s) ->
       n = if (s =? "")%string then None else Some s)) as [n [Hn [Hn1 Hn2]]].
  { destruct Hname as [E | [s E]]; rewrite E.
    - exists None. split; [intros d; now apply name_arg_falsy|].
      split; [reflexivity | discriminate].
    - exists (if (s =? "")%string then None else Some s).
      split; [intros d; apply name_arg_string|].
      split; [discriminate|]. intros s' E'. now inversion E'. }
  rewrite (create_POST_stores fields e n now db He Hne Hn Hon Hfresh).
  set (u := mkUser (seq db) e n now now). exists u. cbn [fst snd rows].
  split; [reflexivity|]. split; [reflexivity|]. split; [reflexivity|].
  split; [exact Hn1|]. split; [exact Hn2|].
  split.
  { intros v Hv. pose proof (ids_drawn _ _ (reachable_ok db Hreach)) as Hd.
    rewrite Forall_forall in Hd. specialize (Hd v Hv). cbn. lia. }
  split; [reflexivity|]. split; [reflexivity|].
  exists (order_by_createdAt desc (rows db ++ [u])).
  run_handler. cbn [online]. rewrite Hon. cbn [fst snd rows].
  split; [reflexivity|].
  apply Permutation_length_1_inv.
  rewrite <- (filter_perm _ _ _ (order_by_createdAt_perm desc (rows db ++ [u]))).
  rewrite filter_app, (filter_email_absent e (rows db) Hfresh). cbn.
  now rewrite String.eqb_refl.
Qed.

Lemma create_returns_stored_record_witness :
  reachable db_after_create /\ online db_after_create = true /\
  exists u,
    fst (create_route.POST (Some (JObj body_bea)) 20 db_after_create) =
      {| status := 200; body := OkUser "User created successfully" u |} /\
    rows (snd (create_route.POST (Some (JObj body_bea)) 20 db_after_create))
      = rows db_after_create ++ [u] /\
    email u = "b@x.com" /\ name u = Some "Bea".
Proof.
  assert (reachable db_after_create) as Hr
    by (apply reachable_step, reachable_empty).
  split; [exact Hr|]. split; [reflexivity|].
  assert (~ In "b@x.com" (map email (rows db_after_create))) as Hfresh.
  { cbn. intros [E|[]]. discriminate. }
  assert ("b@x.com" <> "") as Hne by discriminate.
  destruct (create_returns_stored_record body_bea "b@x.com" 20
              db_after_create Hr eq_refl eq_refl Hne Hfresh
              (or_intror (ex_intro _ "Bea" eq_refl)))
    as [u [Hresp [Hrows [Hemail [_ [Hname _]]]]]].
  exists u.
  exact (conj Hresp (conj Hrows (conj Hemail (Hname "Bea" eq_refl)))).
Defined.

(** The input on which the claim about the returned name fails: the body
    carries the name [""], the record returned and stored has the name
    null. *)
Lemma create_empty_name_returns_null :
  lookup "name" body_blank_name = Some (JStr "") /\
  fst (create_route.POST (Some (JObj body_blank_name)) 10 empty_db) =
    {| status := 200;
       body := OkUser "User created successfully"
                 (mkUser 1 "d@x.com" None 10 10) |} /\
  ~ (exists u,
       body (fst (create_route.POST (Some (JObj body_blank_name)) 10
                    empty_db))
         = OkUser "User created successfully" u /\
       name u = Some "").
Proof.
  split; [reflexivity|]. split; [reflexivity|].
  intros [u [Hu Hn]]. cbn in Hu. inversion Hu. subst u. discriminate.
Qed.

(** ** Create-many on well-formed entries *)

(** With duplicates skipped the INSERT never throws.  It appends one row
    for each address of the batch that the table does not have yet, taken
    from the first entry with that address, and counts the rows appended. *)
Lemma insert_rows_skipping data now : forall db,
  exists new,
    insert_rows data now None db =
      ({| online := online db; rows := rows db ++ new;
          seq := seq db + Z.of_nat (List.length data); log := log db;
          coerce_id := coerce_id db |},
       inr (Z.of_nat (List.length new))) /\
    NoDup (map email new) /\
    (forall e, In e (map email new) <->
               In e (map fst data) /\ ~ In e (map email (rows db))) /\
    (forall u, In u new -> In (email u, name u) data).
Proof.
  induction data as [|[e n] data IH]; intros db.
  - exists []. cbn. rewrite app_nil_r, Z.add_0_r.
    split; [now destruct db|]. split; [constructor|].
    split; [tauto | intros u []].
  - cbn [insert_rows]. unfold bind.
    destruct (has_email e (rows db)) eqn:He.
    + rewrite insert_row_taken by exact He.
      destruct (IH {| online := online db; rows := rows db;
                      seq := seq db + 1; log := log db;
                      coerce_id := coerce_id db |})
        as [new [Hrun [Hnd [Hin Hfrom]]]].
      cbn [online rows seq log] in Hrun, Hin. rewrite Hrun.
      exists new. split.
      { replace (seq db + Z.of_nat (List.length ((e, n) :: data)))
          with (seq db + 1 + Z.of_nat (List.length data))
          by (cbn [List.length]; lia).
        reflexivity. }
      split; [exact Hnd|]. split.
      * intros e'. rewrite Hin. cbn [map fst In].
        apply has_email_In in He. split; [tauto|].
        intros [[<-|H1] H2]; [contradiction | tauto].
      * intros u Hu. right. now apply Hfrom.
    + rewrite insert_row_fresh by exact He.
      set (u := mkUser (seq db) e n now now).
      destruct (IH {| online := online db; rows := rows db ++ [u];
                      seq := seq db + 1; log := log db;
                      coerce_id := coerce_id db |})
        as [new [Hrun [Hnd [Hin Hfrom]]]].
      cbn [online rows seq log] in Hrun, Hin. rewrite Hrun.
      apply has_email_not_In in He.
      exists (u :: new). split.
      { replace (seq db + Z.of_nat (List.length ((e, n) :: data)))
          with (seq db + 1 + Z.of_nat (List.length data))
          by (cbn [List.length]; lia).
        replace (Z.of_nat (List.length (u :: new)))
          with (1 + Z.of_nat (List.length new))
          by (cbn [List.length]; lia).
        rewrite <- app_assoc. reflexivity. }
      split.
      { cbn [map]. constructor; [|exact Hnd].
        intros H. apply Hin in H. destruct H as [_ H]. apply H.
        rewrite map_app. apply in_or_app. right. now left. }
      split.
      * intros e'. cbn [map fst In email u]. rewrite Hin, map_app, in_app_iff.
        cbn [map In email]. destruct (string_dec e e') as [<-|Hne]; tauto.
      * intros v [<-|Hv]; [now left | right; now apply Hfrom].
Qed.

Lemma mapM_entry_run items : forall db,
  forallb is_entry items = true ->
  exists data,
    mapM create_many_route.entry items db = (db, inr data) /\
    forall d, check_many data d = (d, inr (map entry_row items)).
Proof.
  induction items as [|j items IH]; intros db Hwf.
  - exists []. split; [reflexivity | intros d; reflexivity].
  - cbn [forallb] in Hwf. apply andb_prop in Hwf. destruct Hwf as [Hj Hwf].
    destruct (IH db Hwf) as [data [Hrun Hcheck]].
    cbn [mapM]. unfold bind. rewrite entry_spec.
    destruct j as [| | | | |fields|]; try discriminate. rewrite Hrun.
    eexists. split; [reflexivity|]. intros d.
    cbn [check_many]. unfold bind.
    cbn [is_entry] in Hj.
    unfold entry_row at 1, entry_email, entry_name. cbn [map].
    destruct (lookup "email" fields) as [[| | |e| | |]|]; try discriminate.
    cbn [email_arg]. unfold ret at 1.
    assert ((exists n, lookup "name" fields = Some (JStr n)) \/
            truthy (lookup "name" fields) = false) as Hname.
    { destruct (lookup "name" fields) as [[|b|z|n|l|fs|]|];
        try (right; now apply negb_true_iff); left; now exists n. }
    destruct Hname as [[n En] | Hfalsy].
    + rewrite En, name_arg_string, Hcheck.
      unfold or_null, truthy. now destruct (n =? "")%string.
    + rewrite name_arg_falsy by exact Hfalsy. rewrite Hcheck.
      unfold or_null. rewrite Hfalsy.
      now destruct (lookup "name" fields).
Qed.

Lemma create_many_POST_run fields items now db :
  lookup "users" fields = Some (JArr items) ->
  items <> [] ->
  forallb is_entry items = true ->
  online db = true ->
  create_many_route.POST (Some (JObj fields)) now db =
    let s := insert_rows (map entry_row items) now None
               {| online := online db; rows := rows db; seq := seq db;
                  log := QCreateMany :: log db;
                  coerce_id := coerce_id db |} in
    (match snd s with
     | inr count =>
         {| status := 200;
            body := OkCount "Users created successfully" count |}
     | inl error => {| status := 500; body := Err (message error) |}
     end, fst s).
Proof.
  intros Hu Hne Hwf Hon.
  assert ((array_length (Some (JArr items)) =? 0) = false) as Hlen.
  { unfold array_length. cbn [elements]. apply Z.eqb_neq.
    destruct items; [contradiction | cbn [List.length]; lia]. }
  destruct (mapM_entry_run items db Hwf) as [data [Hrun Hcheck]].
  destruct (insert_rows_skipping (map entry_row items) now
              {| online := online db; rows := rows db; seq := seq db;
                 log := QCreateMany :: log db;
                 coerce_id := coerce_id db |})
    as [new [Hins _]].
  unfold create_many_route.POST, try_catch.
  rewrite (bind_run _ _ db db (JObj fields)) by reflexivity.
  rewrite (bind_run _ _ db db (Some (JArr items)))
    by (cbn [prop]; now rewrite Hu).
  rewrite Hlen. cbn [isArray negb orb elements].
  rewrite (bind_run _ _ db db data Hrun).
  assert (prisma_user_createMany data true now db =
          insert_rows (map entry_row items) now None
            {| online := online db; rows := rows db; seq := seq db;
               log := QCreateMany :: log db;
               coerce_id := coerce_id db |}) as Hmany.
  { unfold prisma_user_createMany.
    erewrite bind_run by reflexivity.
    erewrite bind_run by apply Hcheck.
    erewrite bind_run by (apply connect_up; exact Hon).
    unfold statement. cbv beta iota. now rewrite Hins. }
  unfold bind. rewrite Hmany, Hins. reflexivity.
Qed.

Lemma create_many_POST_spec fields items now db :
  lookup "users" fields = Some (JArr items) ->
  items <> [] ->
  forallb is_entry items = true ->
  online db = true ->
  exists new,
    create_many_route.POST (Some (JObj fields)) now db =
      ({| status := 200;
          body := OkCount "Users created successfully"
                    (Z.of_nat (List.length new)) |},
       {| online := online db; rows := rows db ++ new;
          seq := seq db + Z.of_nat (List.length items);
          log := QCreateMany :: log db;
          coerce_id := coerce_id db |}) /\
    NoDup (map email new) /\
    (forall e, In e (map email new) <->
               In e (map entry_email items) /\ ~ In e (map email (rows db))) /\
    (forall u, In u new ->
       exists j, In j items /\ entry_row j = (email u, name u)).
Proof.
  intros Hu Hne Hwf Hon.
  rewrite (create_many_POST_run fields items now db Hu Hne Hwf Hon).
  destruct (insert_rows_skipping (map entry_row items) now
              {| online := online db; rows := rows db; seq := seq db;
                 log := QCreateMany :: log db;
                 coerce_id := coerce_id db |})
    as [new [Hins [Hnd [Hin Hfrom]]]].
  exists new. cbv zeta. rewrite Hins. cbn [fst snd online rows seq log] in *.
  rewrite length_map. split; [reflexivity|]. split; [exact Hnd|]. split.
  - intros e. rewrite Hin, map_map. reflexivity.
  - intros u Hu'. apply Hfrom in Hu'. apply in_map_iff in Hu'.
    destruct Hu' as [j [Hj Hjin]]. now exists j.
Qed.

(** C1: a create-many request whose body holds a non-empty array of
    entries makes one bulk insert.  Every entry whose address is in the
    table already, or repeats an earlier entry of the batch, is skipped and
    the batch goes on: the rows added are one per address of the batch that
    the table did not have, and the success answer's count is the number of
    rows added.  Against the empty table the batch
    [a@x.com, a@x.com, b@x.com] adds exactly two rows and reports count 2. *)
Theorem create_many_skips_duplicates :
  (forall fields items now db,
     lookup "users" fields = Some (JArr items) ->
     items <> [] ->
     forallb is_entry items = true ->
     online db = true ->
     let r := create_many_route.POST (Some (JObj fields)) now db in
     exists new,
       rows (snd r) = rows db ++ new /\
       fst r = {| status := 200;
                  body := OkCount "Users created successfully"
                            (Z.of_nat (List.length new)) |} /\
       log (snd r) = QCreateMany :: log db /\
       NoDup (map email new) /\
       (forall e, In e (map email new) <->
                  In e (map entry_email items) /\
                  ~ In e (map email (rows db)))) /\
  (forall now,
     let r := create_many_route.POST (Some batch_a_a_b) now empty_db in
     fst r = {| status := 200;
                body := OkCount "Users created successfully" 2 |} /\
     map email (rows (snd r)) = ["a@x.com"; "b@x.com"]).
Proof.
  split.
  - intros fields items now db Hu Hne Hwf Hon. cbv zeta.
    destruct (create_many_POST_spec fields items now db Hu Hne Hwf Hon)
      as [new [Hrun [Hnd [Hin _]]]].
    exists new. rewrite Hrun. cbn [fst snd rows log]. auto.
  - intros now. cbv zeta. split; reflexivity.
Qed.

Lemma create_many_skips_duplicates_witness :
  lookup "users" [("users", JArr batch_a_c_c)] = Some (JArr batch_a_c_c) /\
  batch_a_c_c <> [] /\
  forallb is_entry batch_a_c_c = true /\
  online db_with_a = true /\
  exists new,
    rows (snd (create_many_route.POST
                 (Some (JObj [("users", JArr batch_a_c_c)])) 9 db_with_a))
      = rows db_with_a ++ new /\
    fst (create_many_route.POST
           (Some (JObj [("users", JArr batch_a_c_c)])) 9 db_with_a)
      = {| status := 200;
           body := OkCount "Users created successfully"
                     (Z.of_nat (List.length new)) |}.
Proof.
  assert (batch_a_c_c <> []) as Hne by discriminate.
  destruct (proj1 create_many_skips_duplicates
              [("users", JArr batch_a_c_c)] batch_a_c_c 9 db_with_a
              eq_refl Hne eq_refl eq_refl)
    as [new [Hrows [Hresp _]]].
  refine (conj eq_refl (conj Hne (conj eq_refl (conj eq_refl _)))).
  exists new. exact (conj Hrows Hresp).
Defined.

(** C2: in every state the table can reach no address is on two records,
    and every handler keeps it so.  Create-one called twice with the same
    (fresh, non-empty) address answers success the first time and a failure
    the second time, and the table ends with exactly one record more. *)
Theorem email_stays_unique :
  (forall db, reachable db -> NoDup (map email (rows db))) /\
  (forall ev db, store_ok db -> NoDup (map email (rows (handle ev db)))) /\
  (forall fields fields' e now now' db,
     online db = true ->
     lookup "email" fields = Some (JStr e) ->
     lookup "email" fields' = Some (JStr e) ->
     e <> "" ->
     ~ In e (map email (rows db)) ->
     (lookup "name" fields = None \/
      exists n, lookup "name" fields = Some (JStr n)) ->
     let r := create_route.POST (Some (JObj fields)) now db in
     let r' := create_route.POST (Some (JObj fields')) now' (snd r) in
     status (fst r) = 200 /\
     (exists u, body (fst r) = OkUser "User created successfully" u) /\
     status (fst r') = 500 /\
     (exists error, body (fst r') = Err error) /\
     List.length (rows (snd r)) = S (List.length (rows db)) /\
     List.length (rows (snd r')) = S (List.length (rows db))).
Proof.
  split; [|split].
  - intros db Hr. exact (unique_email _ _ (reachable_ok db Hr)).
  - intros ev db Hok. exact (unique_email _ _ (handle_ok ev db Hok)).
  - intros fields fields' e now now' db Hon He He' Hne Hfresh Hname.
    cbv zeta. apply has_email_not_In in Hfresh.
    assert (exists n,
      forall d, name_arg (Some (or_null (lookup "name" fields))) d
                = (d, inr n)) as [n Hn].
    { destruct Hname as [E | [s E]]; rewrite E.
      - exists None. intros d. now apply name_arg_falsy.
      - eexists. intros d. apply name_arg_string. }
    rewrite (create_POST_stores fields e n now db He Hne Hn Hon Hfresh).
    cbn [fst snd status body rows].
    set (db1 := {| online := online db;
                   rows := rows db ++ [mkUser (seq db) e n now now];
                   seq := seq db + 1; log := QCreate :: log db;
                   coerce_id := coerce_id db |}).
    assert (has_email e (rows db1) = true) as Htaken.
    { apply has_email_In. cbn [db1 rows]. rewrite map_app.
      apply in_or_app. right. now left. }
    destruct (create_POST_taken fields' e now' db1 He' Hne Htaken)
      as [Hst [Herr Hrows]].
    split; [reflexivity|]. split; [eauto|]. split; [exact Hst|].
    split; [exact Herr|]. rewrite Hrows. cbn [db1 rows].
    rewrite length_app. cbn [List.length]. lia.
Qed.

Lemma email_stays_unique_witness :
  reachable db_after_create /\
  NoDup (map email (rows db_after_create)) /\
  status (fst (create_route.POST (Some (JObj body_d)) 8 db_with_a)) = 200 /\
  status (fst (create_route.POST (Some (JObj body_d)) 9
                 (snd (create_route.POST (Some (JObj body_d)) 8 db_with_a))))
    = 500.
Proof.
  assert (reachable db_after_create) as Hr
    by (apply reachable_step, reachable_empty).
  assert ("d@x.com" <> "") as Hne by discriminate.
  assert (~ In "d@x.com" (map email (rows db_with_a))) as Hfresh.
  { cbn. intros [E|[]]. discriminate. }
  pose proof (proj2 (proj2 email_stays_unique) body_d body_d
                "d@x.com" 8 9 db_with_a eq_refl eq_refl eq_refl Hne Hfresh
                (or_introl eq_refl)) as H.
  cbv zeta in H.
  exact (conj Hr (conj (proj1 email_stays_unique _ Hr)
           (conj (proj1 H) (proj1 (proj2 (proj2 H)))))).
Defined.

Lemma is_entry_inv j :
  is_entry j = true ->
  exists fields e,
    j = JObj fields /\ lookup "email" fields = Some (JStr e) /\
    entry_email j = e /\
    (truthy (lookup "name" fields) = false -> entry_name j = None) /\
    (forall n, lookup "name" fields = Some (JStr n) -> n <> "" ->
       entry_name j = Some n) /\
    entry_name j <> Some "".
Proof.
  destruct j as [| | | | |fields|]; try discriminate. cbn [is_entry].
  destruct (lookup "email" fields) as [[| | |e| | |]|] eqn:He;
    try discriminate.
  intros _. exists fields, e. cbn [entry_email entry_name]. rewrite He.
  split; [reflexivity|]. split; [reflexivity|]. split; [reflexivity|].
  split; [|split].
  - intros Hf. unfold or_null. rewrite Hf.
    now destruct (lookup "name" fields).
  - intros n -> Hn. unfold or_null. rewrite (truthy_string n Hn). reflexivity.
  - pose proof (or_null_not_empty (lookup "name" fields)) as H.
    destruct (or_null (lookup "name" fields)); congruence.
Qed.

(** C10: a name that is the empty string, or falsy in any other way, is
    stored as null by create-one and by create-many, and a name is stored as
    given only when it is truthy; no record of a table the handlers have
    built has the empty string as its name. *)
Theorem falsy_name_is_stored_as_null :
  (forall fields e now db,
     online db = true ->
     lookup "email" fields = Some (JStr e) ->
     e <> "" ->
     ~ In e (map email (rows db)) ->
     truthy (lookup "name" fields) = false ->
     let r := create_route.POST (Some (JObj fields)) now db in
     exists u,
       fst r = {| status := 200;
                  body := OkUser "User created successfully" u |} /\
       rows (snd r) = rows db ++ [u] /\
       name u = None) /\
  (forall fields items now db,
     lookup "users" fields = Some (JArr items) ->
     items <> [] ->
     forallb is_entry items = true ->
     online db = true ->
     let r := create_many_route.POST (Some (JObj fields)) now db in
     exists new,
       rows (snd r) = rows db ++ new /\
       forall u, In u new ->
         name u <> Some "" /\
         exists efields,
           In (JObj efields) items /\
           lookup "email" efields = Some (JStr (email u)) /\
           (truthy (lookup "name" efields) = false -> name u = None) /\
           (forall n, lookup "name" efields = Some (JStr n) -> n <> "" ->
              name u = Some n)) /\
  (forall db, reachable db ->
     Forall (fun u => name u <> Some "") (rows db)).
Proof.
  split; [|split].
  - intros fields e now db Hon He Hne Hfresh Hfalsy. cbv zeta.
    apply has_email_not_In in Hfresh.
    rewrite (create_POST_stores fields e None now db He Hne
               (fun d => name_arg_falsy _ d Hfalsy) Hon Hfresh).
    eexists. cbn [fst snd rows]. split; [reflexivity|].
    split; reflexivity.
  - intros fields items now db Hu Hne Hwf Hon. cbv zeta.
    destruct (create_many_POST_spec fields items now db Hu Hne Hwf Hon)
      as [new [Hrun [_ [_ Hfrom]]]].
    exists new. rewrite Hrun. cbn [fst snd rows]. split; [reflexivity|].
    intros u Hin. destruct (Hfrom u Hin) as [j [Hj Hrow]].
    rewrite forallb_forall in Hwf.
    assert (entry_email j = email u) as Hrow1
      by (unfold entry_row in Hrow; congruence).
    assert (entry_name j = name u) as Hrow2
      by (unfold entry_row in Hrow; congruence).
    destruct (is_entry_inv j (Hwf j Hj))
      as [efields [e [-> [He [Hemail [Hnull [Hkept Hnot]]]]]]].
    rewrite <- Hrow2. split; [exact Hnot|].
    exists efields. rewrite <- Hrow1, Hemail. auto.
  - intros db Hr. exact (names_not_empty _ _ (reachable_ok db Hr)).
Qed.

Lemma falsy_name_is_stored_as_null_witness :
  truthy (lookup "name" body_blank_name) = false /\
  (exists u,
     fst (create_route.POST (Some (JObj body_blank_name)) 8 db_with_a)
       = {| status := 200;
            body := OkUser "User created successfully" u |} /\
     name u = None) /\
  forallb is_entry batch_blank_names = true /\
  exists new,
    rows (snd (create_many_route.POST
                 (Some (JObj [("users", JArr batch_blank_names)])) 9
                 db_with_a))
      = rows db_with_a ++ new /\
    forall u, In u new -> name u <> Some "".
Proof.
  assert ("d@x.com" <> "") as Hne by discriminate.
  assert (~ In "d@x.com" (map email (rows db_with_a))) as Hfresh.
  { cbn. intros [E|[]]. discriminate. }
  assert (batch_blank_names <> []) as Hne' by discriminate.
  destruct (proj1 falsy_name_is_stored_as_null body_blank_name "d@x.com" 8
              db_with_a eq_refl eq_refl Hne Hfresh eq_refl)
    as [u [Hresp [_ Hname]]].
  destruct (proj1 (proj2 falsy_name_is_stored_as_null)
              [("users", JArr batch_blank_names)] batch_blank_names 9
              db_with_a eq_refl Hne' eq_refl eq_refl)
    as [new [Hrows Hnew]].
  refine (conj eq_refl (conj _ (conj eq_refl _))).
  - exists u. exact (conj Hresp Hname).
  - exists new. refine (conj Hrows _).
    intros v Hv. exact (proj1 (Hnew v Hv)).
Defined.

(** ** The page's buttons *)

(** The input on which the claim about the buttons fails: the page has an
    empty list and Delete Single User is pressed.  Nothing is sent, neither
    a delete nor a list-all, although the server has a user. *)
Lemma delete_single_on_empty_list_sends_nothing :
  users initial_Home = [] /\
  rows (database server_with_a) <> [] /\
  handleDeleteSingle Server serve initial_Home (mkWorld server_with_a []) =
    (setOutput (Text "No users to delete") initial_Home,
     mkWorld server_with_a []) /\
  sent (snd (handleDeleteSingle Server serve initial_Home
               (mkWorld server_with_a []))) = [].
Proof.
  split; [reflexivity|]. split; [discriminate|]. split; reflexivity.
Qed.

(** C8, as the page has it: Create Single User, Create Multiple Users and
    Delete All Users each send their one request to their handler and then,
    when that request is answered (whatever the answer says), send the
    list-all request; when it is not answered the refresh is left out.
    Delete Single User does the same with the id of the first listed user
    when the page's list is not empty; when the list is empty it sends
    nothing and only shows 'No users to delete'. *)
Theorem buttons_fetch_then_refresh (Net : Type)
    (fetch : Fetch -> Net -> (string + payload) * Net)
    (h : Home) (w : World Net) :
  (forall Date_now,
     sent_then_refreshed fetch (create_request Date_now) w
       (snd (handleCreateSingleUser Net fetch Date_now h w))) /\
  (forall t1 t2 t3,
     sent_then_refreshed fetch (create_many_request t1 t2 t3) w
       (snd (handleCreateMany Net fetch t1 t2 t3 h w))) /\
  sent_then_refreshed fetch delete_many_request w
    (snd (handleDeleteMany Net fetch h w)) /\
  (forall first rest, users h = first :: rest ->
     sent_then_refreshed fetch (delete_request (id first)) w
       (snd (handleDeleteSingle Net fetch h w))) /\
  (users h = [] ->
     handleDeleteSingle Net fetch h w =
       (setOutput (Text "No users to delete") h, w)).
Proof.
  assert (forall f h2,
    sent_then_refreshed fetch f w
      (snd (let (h4, w4) :=
              match await_fetch Net fetch f w with
              | (inr data, w3) =>
                  fetchAllUsers Net fetch (setOutput (Json data) h2) w3
              | (inl error, w3) =>
                  (setOutput (Text ("Error: " ++ error)) h2, w3)
              end in
            (setLoading false h4, w4)))) as Hpress.
  { intros f h2. unfold sent_then_refreshed, fetchAllUsers, await_fetch.
    destruct (fetch f (net w)) as [[error|data] n1]; cbn; [reflexivity|].
    destruct (fetch get_all_request n1) as [[error|data'] n2]; cbn;
      now rewrite <- app_assoc. }
  split; [intros Date_now; apply Hpress|].
  split; [intros t1 t2 t3; apply Hpress|].
  split; [apply Hpress|].
  split.
  - intros first rest Hl. unfold handleDeleteSingle. rewrite Hl.
    apply Hpress.
  - intros Hl. unfold handleDeleteSingle. now rewrite Hl.
Qed.

Lemma buttons_fetch_then_refresh_witness :
  users Home_with_a = [mkUser 1 "a@x.com" None 5 5] /\
  sent (snd (handleDeleteSingle Server serve Home_with_a
               (mkWorld server_with_a []))) =
    [delete_request 1; get_all_request] /\
  users initial_Home = [] /\
  handleDeleteSingle Server serve initial_Home (mkWorld server_with_a []) =
    (setOutput (Text "No users to delete") initial_Home,
     mkWorld server_with_a []).
Proof.
  pose proof (buttons_fetch_then_refresh Server serve Home_with_a
                (mkWorld server_with_a [])) as H.
  pose proof (buttons_fetch_then_refresh Server serve initial_Home
                (mkWorld server_with_a [])) as H0.
  exact (conj eq_refl
           (conj (proj1 (proj2 (proj2 (proj2 H))) _ _ eq_refl)
              (conj eq_refl (proj2 (proj2 (proj2 (proj2 H0))) eq_refl)))).
Defined.

(** ** Every request: how a handler can end *)

Arguments name_arg : simpl never.
Arguments insert_row : simpl never.
Arguments insert_rows : simpl never.
Arguments check_many : simpl never.
Arguments mapM : simpl never.
Arguments order_by_createdAt : simpl never.

Lemma name_arg_total v :
  (exists err, forall d, name_arg v d = (d, inl err)) \/
  (exists n, forall d, name_arg v d = (d, inr n)).
Proof.
  unfold name_arg, ret, throw. destruct v as [[| | | | | |]|]; eauto.
Qed.

Ltac failed :=
  solve [left; unfold fails_on; cbn; repeat split; auto; try lia;
         try discriminate].

(** Create-one either fails, or was given an object with a non-empty string
    for [email] and an acceptable [name], found the address free, and
    stored and returned the row. *)
Lemma create_POST_cases request now db :
  fails_on db (create_route.POST request now db) \/
  exists fields e n,
    request = Some (JObj fields) /\
    lookup "email" fields = Some (JStr e) /\ e <> "" /\ n <> Some "" /\
    online db = true /\ has_email e (rows db) = false /\
    create_route.POST request now db =
      ({| status := 200;
          body := OkUser "User created successfully"
                    (mkUser (seq db) e n now now) |},
       {| online := online db;
          rows := rows db ++ [mkUser (seq db) e n now now];
          seq := seq db + 1;
          log := QCreate :: log db;
          coerce_id := coerce_id db |}).
Proof.
  destruct request as [parsed|]; [|failed].
  destruct parsed as [| | | | |fields|]; try failed.
  destruct (lookup "email" fields) as [[|b|z|e| | |]|] eqn:He;
    try (run_handler; rewrite He; failed).
  - destruct b; run_handler; rewrite He; failed.
  - destruct (z =? 0) eqn:Hz; run_handler; rewrite He; cbn; rewrite Hz;
      failed.
  - destruct (String.eqb_spec e "") as [->|Hne];
      [run_handler; rewrite He; failed|].
    destruct (name_arg_total (Some (or_null (lookup "name" fields))))
      as [[err Hn]|[n Hn]].
    + run_handler. rewrite He, (truthy_string e Hne). cbn [negb email_arg].
      unfold ret. rewrite Hn. failed.
    + assert (n <> Some "") as Hnn.
      { apply (name_arg_or_null (lookup "name" fields) db). now rewrite Hn. }
      destruct (online db) eqn:Hon.
      * destruct (has_email e (rows db)) eqn:Hfree.
        -- run_handler. rewrite He, (truthy_string e Hne).
           cbn [negb email_arg]. unfold ret. rewrite Hn. cbn [online].
           rewrite Hon. rewrite insert_row_taken by exact Hfree. failed.
        -- right. exists fields, e, n.
           rewrite (create_POST_stores fields e n now db He Hne Hn
                      Hon Hfree).
           repeat split; auto. now rewrite Hon.
      * run_handler. rewrite He, (truthy_string e Hne).
        cbn [negb email_arg]. unfold ret. rewrite Hn. cbn [online].
        rewrite Hon. failed.
Qed.

Lemma bind_throws {A B} (m : M A) (k : A -> M B) db db' e :
  m db = (db', inl e) -> bind m k db = (db', inl e).
Proof. intros H. unfold bind. now rewrite H. Qed.

Lemma connect_off db :
  online db = false -> connect db = (db, inl (PrismaClientError P1001)).
Proof. intros H. unfold connect. now rewrite H. Qed.

Lemma mapM_cons {X Y} (f : X -> M Y) x rest :
  mapM f (x :: rest) = (y <- f x ;; ys <- mapM f rest ;; ret (y :: ys)).
Proof. reflexivity. Qed.

Lemma check_many_cons e n rest :
  check_many ((e, n) :: rest) =
    (e' <- email_arg e ;; n' <- name_arg n ;;
     rest' <- check_many rest ;; ret ((e', n') :: rest')).
Proof. reflexivity. Qed.

Lemma name_arg_accepts nm d d' n :
  name_arg (Some (or_null nm)) d = (d', inr n) ->
  match nm with
  | Some (JStr _) => true
  | other => negb (truthy other)
  end = true.
Proof.
  unfold name_arg, or_null, truthy, ret, throw.
  destruct nm as [[|b|z|s|l|fs|]|]; try reflexivity; try discriminate.
  - destruct b; [discriminate | reflexivity].
  - destruct (z =? 0); [reflexivity | discriminate].
Qed.

Lemma check_many_head pe pn rest d checked :
  check_many ((pe, pn) :: rest) d = (d, inr checked) ->
  exists e n crest,
    pe = Some (JStr e) /\ name_arg pn d = (d, inr n) /\
    check_many rest d = (d, inr crest).
Proof.
  rewrite check_many_cons. unfold bind. intros Hc.
  destruct pe as [[| | |e| | |]|]; try discriminate.
  cbn [email_arg] in Hc. unfold ret at 1 in Hc.
  pose proof (name_arg_pure pn d) as Hp.
  destruct (name_arg pn d) as [d1 [err|n]]; cbn [fst] in Hp; subst d1;
    [discriminate|].
  pose proof (check_many_spec rest d) as [Hp' _].
  destruct (check_many rest d) as [d1 [err|crest]];
    cbn [fst] in Hp'; subst d1; [discriminate|].
  now exists e, n, crest.
Qed.

(** When the callback has run over the whole array and the client has
    accepted every pair, every element was an entry. *)
Lemma entries_checked items : forall db data d checked,
  mapM create_many_route.entry items db = (db, inr data) ->
  check_many data d = (d, inr checked) ->
  forallb is_entry items = true.
Proof.
  induction items as [|j items IH]; intros db data d checked Hm Hc;
    [reflexivity|].
  rewrite mapM_cons in Hm. unfold bind in Hm. rewrite entry_spec in Hm.
  destruct (mapM_entry_spec items db) as [Hpure _].
  destruct (mapM create_many_route.entry items db) as [db1 [err|rest]] eqn:Hrest;
    cbn [fst] in Hpure; subst db1; [destruct j; discriminate|].
  destruct j as [| | | | |fields|]; try discriminate;
    unfold ret in Hm; inversion Hm; subst data; clear Hm;
    apply check_many_head in Hc;
    destruct Hc as [e [n [crest [He [Hn Hcr]]]]]; try discriminate.
  cbn [forallb]. apply andb_true_intro. split.
  - unfold is_entry. rewrite He.
    pose proof (name_arg_accepts _ _ _ _ Hn) as Hacc.
    destruct (lookup "name" fields) as [[| | | | | |]|]; exact Hacc.
  - exact (IH db rest d crest Hrest Hcr).
Qed.

(** Create-many either fails, or was given an object whose [users] is a
    non-empty array of entries while the connection was up. *)
Lemma create_many_POST_cases request now db :
  fails_on db (create_many_route.POST request now db) \/
  exists fields items,
    request = Some (JObj fields) /\
    lookup "users" fields = Some (JArr items) /\
    items <> [] /\ forallb is_entry items = true /\ online db = true.
Proof.
  destruct request as [parsed|]; [|failed].
  destruct parsed as [| | | | |fields|]; try failed.
  destruct (lookup "users" fields) as [[| | | |items| |]|] eqn:Hu;
    try (run_handler; rewrite Hu; failed).
  destruct items as [|j items]; [run_handler; rewrite Hu; failed|].
  assert ((array_length (Some (JArr (j :: items))) =? 0) = false) as Hlen.
  { unfold array_length. cbn [elements List.length]. apply Z.eqb_neq. lia. }
  assert (create_many_route.POST (Some (JObj fields)) now db =
      try_catch
        (data <- mapM create_many_route.entry (j :: items) ;;
         count <- prisma_user_createMany data true now ;;
         ret (NextResponse_json
                (OkCount "Users created successfully" count) None)) db)
    as Hstart.
  { unfold create_many_route.POST, try_catch.
    rewrite (bind_run _ _ db db (JObj fields)) by reflexivity.
    rewrite (bind_run _ _ db db (Some (JArr (j :: items))))
      by (cbn [prop]; now rewrite Hu).
    rewrite Hlen. reflexivity. }
  rewrite Hstart. unfold try_catch.
  destruct (mapM_entry_spec (j :: items) db) as [Hpure _].
  destruct (mapM create_many_route.entry (j :: items) db)
    as [db1 [err|data]] eqn:Hm; cbn [fst] in Hpure; subst db1.
  - rewrite (bind_throws _ _ db db err Hm). failed.
  - rewrite (bind_run _ _ db db data Hm).
    set (db0 := {| online := online db; rows := rows db; seq := seq db;
                   log := QCreateMany :: log db;
                   coerce_id := coerce_id db |}).
    destruct (check_many_spec data db0) as [Hpure' _].
    destruct (check_many data db0) as [d1 [err|checked]] eqn:Hc;
      cbn [fst] in Hpure'; subst d1.
    + assert (prisma_user_createMany data true now db = (db0, inl err))
        as Hmany.
      { unfold prisma_user_createMany.
        erewrite bind_run by reflexivity.
        now erewrite bind_throws by exact Hc. }
      rewrite (bind_throws _ _ _ _ _ Hmany). failed.
    + assert (online db = true \/ online db = false) as [Hon|Hon]
        by (destruct (online db); auto).
      * right. exists fields, (j :: items).
        repeat split; auto; [discriminate|].
        exact (entries_checked _ _ _ _ _ Hm Hc).
      * assert (prisma_user_createMany data true now db =
                (db0, inl (PrismaClientError P1001))) as Hmany.
        { unfold prisma_user_createMany.
          erewrite bind_run by reflexivity.
          erewrite bind_run by exact Hc.
          now erewrite bind_throws by (apply connect_off; exact Hon). }
        rewrite (bind_throws _ _ _ _ _ Hmany). left. unfold fails_on.
        cbn. rewrite Hon. repeat split; auto; try lia; discriminate.
Qed.

(** Delete-one either fails, or was given an object whose [id] is truthy
    and is taken by the client for the id of a row, and removed the rows
    with that id, returning the first of them. *)
Lemma delete_DELETE_cases request db :
  fails_on db (delete_route.DELETE request db) \/
  exists fields v z u,
    request = Some (JObj fields) /\
    lookup "id" fields = Some v /\ truthy (Some v) = true /\
    id_read db v = Some z /\
    online db = true /\
    find (fun v => id v =? z) (rows db) = Some u /\
    delete_route.DELETE request db =
      ({| status := 200;
          body := OkUser "User deleted successfully" u |},
       {| online := online db;
          rows := filter (fun v => negb (id v =? z)) (rows db);
          seq := seq db;
          log := QDelete :: log db;
          coerce_id := coerce_id db |}).
Proof.
  destruct request as [parsed|]; [|failed].
  destruct parsed as [| | | | |fields|]; try failed.
  destruct (lookup "id" fields) as [v|] eqn:Hid;
    [|run_handler; rewrite Hid; failed].
  destruct (truthy (Some v)) eqn:Ht;
    [|run_handler; rewrite Hid, Ht; failed].
  rewrite (delete_DELETE_truthy fields v db Hid Ht).
  destruct (id_read db v) as [z|] eqn:Hread; [|failed].
  destruct (online db) eqn:Hon; [|failed].
  destruct (find (fun u => id u =? z) (rows db)) as [u|] eqn:Hf; [|failed].
  right. exists fields, v, z, u. repeat split; auto.
Qed.

(** Delete-all and list-all fail only when the database cannot be
    reached. *)
Lemma delete_many_DELETE_cases db :
  (online db = false /\ fails_on db (delete_many_route.DELETE db)) \/
  (online db = true /\
   delete_many_route.DELETE db =
     ({| status := 200;
         body := OkCount "All users deleted successfully"
                   (Z.of_nat (List.length (rows db))) |},
      {| online := online db; rows := []; seq := seq db;
         log := QDeleteMany :: log db;
         coerce_id := coerce_id db |})).
Proof.
  destruct (online db) eqn:Hon; [right | left]; (split; [reflexivity|]).
  - run_handler. cbn [online]. rewrite Hon. reflexivity.
  - run_handler. cbn [online]. rewrite Hon. unfold fails_on. cbn.
    repeat split; auto; try lia; discriminate.
Qed.

Lemma get_all_GET_cases db :
  (online db = false /\ fails_on db (get_all_route.GET db)) \/
  (online db = true /\
   get_all_route.GET db =
     ({| status := 200;
         body := OkUsers (order_by_createdAt desc (rows db)) |},
      {| online := online db; rows := rows db; seq := seq db;
         log := QFindMany :: log db;
         coerce_id := coerce_id db |})).
Proof.
  destruct (online db) eqn:Hon; [right | left]; (split; [reflexivity|]).
  - run_handler. cbn [online]. rewrite Hon. reflexivity.
  - run_handler. cbn [online]. rewrite Hon. unfold fails_on. cbn.
    repeat split; auto; try lia; discriminate.
Qed.

(** ** What every answer tells *)

Lemma create_many_POST_ok_answer fields items now db :
  lookup "users" fields = Some (JArr items) ->
  items <> [] -> forallb is_entry items = true -> online db = true ->
  status (fst (create_many_route.POST (Some (JObj fields)) now db)) = 200 /\
  is_Err (body (fst (create_many_route.POST (Some (JObj fields)) now db)))
    = false /\
  online (snd (create_many_route.POST (Some (JObj fields)) now db))
    = online db.
Proof.
  intros Hu Hne Hwf Hon.
  destruct (create_many_POST_spec fields items now db Hu Hne Hwf Hon)
    as [new [Hrun _]].
  rewrite Hrun. cbn. auto.
Qed.

(** X1: a request that is not answered with 200 has changed no row: after
    any failure of any of the five handlers the table holds the records it
    held before, and the connection is as it was. *)
Theorem failed_request_changes_no_row (ev : event) (db : Db) (r : response) :
  respond ev db = Some r ->
  status r <> 200 ->
  rows (handle ev db) = rows db /\ online (handle ev db) = online db.
Proof.
  intros Hr Hst.
  destruct ev as [request now|request now|request| | |up]; cbn in Hr;
    inversion Hr; subst r; clear Hr; cbn [handle].
  - destruct (create_POST_cases request now db)
      as [[_ [_ [H1 [H2 _]]]] | [fields [e [n [_ [_ [_ [_ [_ [_ Hrun]]]]]]]]]];
      [auto|]. rewrite Hrun in Hst. cbn in Hst. congruence.
  - destruct (create_many_POST_cases request now db)
      as [[_ [_ [H1 [H2 _]]]] | [fields [items [-> [Hu [Hne [Hwf Hon]]]]]]];
      [auto|].
    destruct (create_many_POST_ok_answer fields items now db Hu Hne Hwf Hon)
      as [H200 _]. congruence.
  - destruct (delete_DELETE_cases request db)
      as [[_ [_ [H1 [H2 _]]]]
         | [fields [v [z [u [_ [_ [_ [_ [_ [_ Hrun]]]]]]]]]]];
      [auto|]. rewrite Hrun in Hst. cbn in Hst. congruence.
  - destruct (delete_many_DELETE_cases db)
      as [[_ [_ [_ [H1 [H2 _]]]]] | [_ Hrun]]; [auto|].
    rewrite Hrun in Hst. cbn in Hst. congruence.
  - destruct (get_all_GET_cases db)
      as [[_ [_ [_ [H1 [H2 _]]]]] | [_ Hrun]]; [auto|].
    rewrite Hrun in Hst. cbn in Hst. congruence.
Qed.

Lemma failed_request_changes_no_row_witness :
  respond (EvCreate (Some (JObj body_d)) 9)
    (handle (EvCreate (Some (JObj body_d)) 8) db_with_a)
    = Some {| status := 500;
              body := Err (message (PrismaClientError P2002)) |} /\
  rows (handle (EvCreate (Some (JObj body_d)) 9)
          (handle (EvCreate (Some (JObj body_d)) 8) db_with_a))
    = rows (handle (EvCreate (Some (JObj body_d)) 8) db_with_a).
Proof.
  assert (500 <> 200) as Hst by discriminate.
  exact (conj eq_refl
           (proj1 (failed_request_changes_no_row
                     (EvCreate (Some (JObj body_d)) 9)
                     (handle (EvCreate (Some (JObj body_d)) 8) db_with_a)
                     _ eq_refl Hst))).
Defined.

(** X2: every answer of every handler has status 200, 400 or 500; its body
    is an error object exactly when the status is not 200; and a 400 means
    the handler stopped at its own check: the database, the log of client
    calls included, is untouched. *)
Theorem answers_are_200_400_or_500 (ev : event) (db : Db) (r : response) :
  respond ev db = Some r ->
  (status r = 200 \/ status r = 400 \/ status r = 500) /\
  is_Err (body r) = negb (status r =? 200) /\
  (status r = 400 -> handle ev db = db).
Proof.
  intros Hr.
  assert (forall x : response * Db, fails_on db x ->
    (status (fst x) = 200 \/ status (fst x) = 400 \/ status (fst x) = 500) /\
    is_Err (body (fst x)) = negb (status (fst x) =? 200) /\
    (status (fst x) = 400 -> snd x = db)) as Hfail.
  { intros x [Hs [He [_ [_ [_ H400]]]]]. split; [tauto|]. split; [|exact H400].
    rewrite He. destruct Hs as [-> | ->]; reflexivity. }
  destruct ev as [request now|request now|request| | |up]; cbn in Hr;
    inversion Hr; subst r; clear Hr; cbn [handle].
  - destruct (create_POST_cases request now db)
      as [Hf | [fields [e [n [_ [_ [_ [_ [_ [_ Hrun]]]]]]]]]];
      [now apply Hfail|].
    rewrite Hrun. cbn. repeat split; auto. discriminate.
  - destruct (create_many_POST_cases request now db)
      as [Hf | [fields [items [-> [Hu [Hne [Hwf Hon]]]]]]];
      [now apply Hfail|].
    destruct (create_many_POST_ok_answer fields items now db Hu Hne Hwf Hon)
      as [H200 [Herr _]].
    rewrite H200, Herr. repeat split; auto. discriminate.
  - destruct (delete_DELETE_cases request db)
      as [Hf
         | [fields [v [z [u [_ [_ [_ [_ [_ [_ Hrun]]]]]]]]]]];
      [now apply Hfail|].
    rewrite Hrun. cbn. repeat split; auto. discriminate.
  - destruct (delete_many_DELETE_cases db) as [[_ Hf] | [_ Hrun]];
      [now apply Hfail|].
    rewrite Hrun. cbn. repeat split; auto. discriminate.
  - destruct (get_all_GET_cases db) as [[_ Hf] | [_ Hrun]];
      [now apply Hfail|].
    rewrite Hrun. cbn. repeat split; auto. discriminate.
Qed.

Lemma answers_are_200_400_or_500_witness :
  respond (EvDelete (Some (JObj [("id", JStr "")]))) db_with_a
    = Some {| status := 400; body := Err "User ID is required" |} /\
  handle (EvDelete (Some (JObj [("id", JStr "")]))) db_with_a = db_with_a.
Proof.
  exact (conj eq_refl
           (proj2 (proj2 (answers_are_200_400_or_500
                            (EvDelete (Some (JObj [("id", JStr "")])))
                            db_with_a _ eq_refl)) eq_refl)).
Defined.

(** X3: whatever the request, a 200 from create-one means that exactly one
    record was appended to the table and that it is the record in the
    answer: its address is non-empty and was not in the table, its name is
    not the empty string, and both timestamps are the instant of the
    insert. *)
Theorem create_success_means_row_appended
    (request : option json) (now : Z) (db : Db) :
  status (fst (create_route.POST request now db)) = 200 ->
  exists u,
    body (fst (create_route.POST request now db))
      = OkUser "User created successfully" u /\
    rows (snd (create_route.POST request now db)) = rows db ++ [u] /\
    email u <> "" /\
    ~ In (email u) (map email (rows db)) /\
    name u <> Some "" /\
    createdAt u = now /\ updatedAt u = now.
Proof.
  intros Hst.
  destruct (create_POST_cases request now db)
    as [[[H4 | H5] _] | [fields [e [n [_ [_ [Hne [Hnn [_ [Hfree Hrun]]]]]]]]]];
    [congruence | congruence |].
  rewrite Hrun. eexists. cbn.
  repeat split; auto. now apply has_email_not_In.
Qed.

Lemma create_success_means_row_appended_witness :
  status (fst (create_route.POST (Some (JObj body_bea)) 20 db_with_a)) = 200 /\
  exists u,
    rows (snd (create_route.POST (Some (JObj body_bea)) 20 db_with_a))
      = rows db_with_a ++ [u] /\
    name u <> Some "".
Proof.
  destruct (create_success_means_row_appended (Some (JObj body_bea)) 20
              db_with_a eq_refl)
    as [u [_ [Hrows [_ [_ [Hname _]]]]]].
  refine (conj eq_refl _). exists u. exact (conj Hrows Hname).
Defined.

Lemma find_id_some z rs u :
  find (fun v => id v =? z) rs = Some u -> In u rs /\ id u = z.
Proof.
  intros H. apply find_some in H. destruct H as [Hin Heq].
  split; [assumption | now apply Z.eqb_eq].
Qed.

(** Taking the rows with one id out of a table whose ids are unique takes
    out one row. *)
Lemma filter_out_id rs u :
  NoDup (map id rs) -> In u rs ->
  S (List.length (filter (fun v => negb (id v =? id u)) rs))
    = List.length rs /\
  ~ In u (filter (fun v => negb (id v =? id u)) rs) /\
  forall v, In v rs -> v <> u ->
    In v (filter (fun v => negb (id v =? id u)) rs).
Proof.
  intros Hnd Hin. split; [|split].
  - induction rs as [|w rs IH]; [destruct Hin|].
    cbn [map] in Hnd. apply NoDup_cons_iff in Hnd. destruct Hnd as [Hw Hnd].
    cbn [filter List.length]. destruct Hin as [->|Hin].
    + rewrite Z.eqb_refl. cbn [negb]. f_equal.
      assert (filter (fun v => negb (id v =? id u)) rs = rs) as ->;
        [|reflexivity].
      apply forallb_filter_id. apply forallb_forall. intros v Hv.
      apply negb_true_iff, Z.eqb_neq. intros E. apply Hw.
      rewrite <- E. now apply in_map.
    + destruct (Z.eqb_spec (id w) (id u)) as [E|E].
      * exfalso. apply Hw. rewrite E. now apply in_map.
      * cbn [negb List.length]. f_equal. now apply IH.
  - intros H. apply filter_In in H. destruct H as [_ H].
    rewrite Z.eqb_refl in H. discriminate.
  - intros v Hv Hne. apply filter_In. split; [assumption|].
    apply negb_true_iff, Z.eqb_neq. intros E. apply Hne.
    clear Hne. induction rs as [|w rs IH]; [destruct Hin|].
    cbn [map] in Hnd. apply NoDup_cons_iff in Hnd. destruct Hnd as [Hw Hnd].
    destruct Hin as [->|Hin], Hv as [->|Hv]; auto.
    + exfalso. apply Hw. rewrite <- E. now apply in_map.
    + exfalso. apply Hw. rewrite E. now apply in_map.
Qed.

(** X4: whatever the request, a 200 from delete-one means that the record
    in the answer was in the table and carries the requested id, and that
    the table afterwards is the table before without the rows of that id;
    when ids are unique that is exactly one record less, the others kept
    in their order. *)
Theorem delete_success_means_row_removed (request : option json) (db : Db) :
  status (fst (delete_route.DELETE request db)) = 200 ->
  exists u,
    body (fst (delete_route.DELETE request db))
      = OkUser "User deleted successfully" u /\
    In u (rows db) /\
    rows (snd (delete_route.DELETE request db))
      = filter (fun v => negb (id v =? id u)) (rows db) /\
    (NoDup (map id (rows db)) ->
       S (List.length (rows (snd (delete_route.DELETE request db))))
         = List.length (rows db) /\
       ~ In u (rows (snd (delete_route.DELETE request db))) /\
       forall v, In v (rows db) -> v <> u ->
         In v (rows (snd (delete_route.DELETE request db)))).
Proof.
  intros Hst.
  destruct (delete_DELETE_cases request db)
    as [[[H4 | H5] _] | [fields [w [z [u [_ [_ [_ [_ [_ [Hf Hrun]]]]]]]]]]];
    [congruence | congruence |].
  destruct (find_id_some z (rows db) u Hf) as [Hin Hid]. subst z.
  rewrite Hrun. exists u. cbn [fst snd body rows].
  split; [reflexivity|]. split; [exact Hin|]. split; [reflexivity|].
  intros Hnd. now apply filter_out_id.
Qed.

Lemma delete_success_means_row_removed_witness :
  status (fst (delete_route.DELETE (Some (JObj [("id", JNum 1)]))
                 db_with_a_b)) = 200 /\
  NoDup (map id (rows db_with_a_b)) /\
  S (List.length (rows (snd (delete_route.DELETE
                               (Some (JObj [("id", JNum 1)]))
                               db_with_a_b))))
    = List.length (rows db_with_a_b).
Proof.
  assert (NoDup (map id (rows db_with_a_b))) as Hnd.
  { cbn. repeat constructor; cbn; intuition discriminate. }
  destruct (delete_success_means_row_removed
              (Some (JObj [("id", JNum 1)])) db_with_a_b eq_refl)
    as [u [_ [_ [_ H]]]].
  exact (conj eq_refl (conj Hnd (proj1 (H Hnd)))).
Defined.

(** X5: whatever the request, a 200 from create-many means that the table
    was only extended, by rows that are new to it and pairwise different in
    address, and that the count in the answer is the number of rows
    added. *)
Theorem create_many_success_counts_growth
    (request : option json) (now : Z) (db : Db) :
  status (fst (create_many_route.POST request now db)) = 200 ->
  exists new,
    rows (snd (create_many_route.POST request now db)) = rows db ++ new /\
    body (fst (create_many_route.POST request now db))
      = OkCount "Users created successfully" (Z.of_nat (List.length new)) /\
    NoDup (map email new) /\
    (forall u, In u new ->
       ~ In (email u) (map email (rows db)) /\ name u <> Some "").
Proof.
  intros Hst.
  destruct (create_many_POST_cases request now db)
    as [[[H4 | H5] _] | [fields [items [-> [Hu [Hne [Hwf Hon]]]]]]];
    [congruence | congruence |].
  destruct (create_many_POST_spec fields items now db Hu Hne Hwf Hon)
    as [new [Hrun [Hnd [Hin Hfrom]]]].
  exists new. rewrite Hrun. cbn [fst snd body rows].
  split; [reflexivity|]. split; [reflexivity|]. split; [exact Hnd|].
  intros u Hu'. split.
  - apply (Hin (email u)). now apply in_map.
  - destruct (Hfrom u Hu') as [j [Hj Hrow]].
    rewrite forallb_forall in Hwf.
    destruct (is_entry_inv j (Hwf j Hj)) as [? [? [_ [_ [_ [_ [_ Hnot]]]]]]].
    unfold entry_row in Hrow. congruence.
Qed.

Lemma create_many_success_counts_growth_witness :
  status (fst (create_many_route.POST (Some batch_a_a_b) 7 db_with_a)) = 200 /\
  exists new,
    rows (snd (create_many_route.POST (Some batch_a_a_b) 7 db_with_a))
      = rows db_with_a ++ new /\
    body (fst (create_many_route.POST (Some batch_a_a_b) 7 db_with_a))
      = OkCount "Users created successfully" (Z.of_nat (List.length new)).
Proof.
  destruct (create_many_success_counts_growth (Some batch_a_a_b) 7 db_with_a
              eq_refl) as [new [Hrows [Hbody _]]].
  refine (conj eq_refl _). exists new. exact (conj Hrows Hbody).
Defined.

(** ** Bodies the handlers turn away *)

(** X6: a create-many request whose [users] is absent, is not an array, or
    is the empty array is answered with status 400 and
    'Users array is required and must not be empty'; the client is not
    called and the database is untouched. *)
Theorem create_many_rejects_missing_or_empty_array
    (fields : list (string * json)) (now : Z) (db : Db) :
  isArray (lookup "users" fields) = false \/
  lookup "users" fields = Some (JArr []) ->
  create_many_route.POST (Some (JObj fields)) now db =
    ({| status := 400;
        body := Err "Users array is required and must not be empty" |}, db).
Proof.
  intros [H | H]; run_handler.
  - rewrite H. reflexivity.
  - rewrite H. reflexivity.
Qed.

Lemma create_many_rejects_missing_or_empty_array_witness :
  isArray (lookup "users" [("users", JStr "a@x.com")]) = false /\
  create_many_route.POST (Some (JObj [("users", JStr "a@x.com")])) 5 db_with_a
    = ({| status := 400;
          body := Err "Users array is required and must not be empty" |},
       db_with_a) /\
  create_many_route.POST (Some (JObj [("users", JArr [])])) 5 db_with_a
    = ({| status := 400;
          body := Err "Users array is required and must not be empty" |},
       db_with_a).
Proof.
  exact (conj eq_refl
           (conj (create_many_rejects_missing_or_empty_array
                    [("users", JStr "a@x.com")] 5 db_with_a
                    (or_introl eq_refl))
                 (create_many_rejects_missing_or_empty_array
                    [("users", JArr [])] 5 db_with_a
                    (or_intror eq_refl)))).
Defined.

Lemma create_many_POST_nonempty fields j items now db :
  lookup "users" fields = Some (JArr (j :: items)) ->
  create_many_route.POST (Some (JObj fields)) now db =
    try_catch
      (data <- mapM create_many_route.entry (j :: items) ;;
       count <- prisma_user_createMany data true now ;;
       ret (NextResponse_json
              (OkCount "Users created successfully" count) None)) db.
Proof.
  intros Hu.
  assert ((array_length (Some (JArr (j :: items))) =? 0) = false) as Hlen.
  { unfold array_length. cbn [elements List.length]. apply Z.eqb_neq. lia. }
  unfold create_many_route.POST, try_catch.
  rewrite (bind_run _ _ db db (JObj fields)) by reflexivity.
  rewrite (bind_run _ _ db db (Some (JArr (j :: items))))
    by (cbn [prop]; now rewrite Hu).
  rewrite Hlen. reflexivity.
Qed.

Lemma mapM_entry_null items : forall db,
  In JNull items ->
  mapM create_many_route.entry items db = (db, inl TypeError).
Proof.
  induction items as [|j items IH]; intros db Hin; [destruct Hin|].
  rewrite mapM_cons. unfold bind. rewrite entry_spec.
  destruct j as [| | | | |fields|]; try reflexivity;
    (destruct Hin as [E|Hin]; [discriminate|]);
    rewrite (IH db Hin); reflexivity.
Qed.

(** X7: one element of the array that is not an entry (null, not an
    object, an [email] that is not a string, a truthy [name] that is not a
    string) fails the whole create-many request with status 500: no row is
    added, not even for the entries that are in order.  When the element is
    null the callback of [users.map] throws, the client is never called and
    the database is untouched. *)
Theorem create_many_bad_entry_aborts_batch
    (fields : list (string * json)) (items : list json) (now : Z) (db : Db) :
  lookup "users" fields = Some (JArr items) ->
  forallb is_entry items = false ->
  status (fst (create_many_route.POST (Some (JObj fields)) now db)) = 500 /\
  is_Err (body (fst (create_many_route.POST (Some (JObj fields)) now db)))
    = true /\
  rows (snd (create_many_route.POST (Some (JObj fields)) now db)) = rows db /\
  (In JNull items ->
     create_many_route.POST (Some (JObj fields)) now db =
       ({| status := 500; body := Err (message TypeError) |}, db)).
Proof.
  intros Hu Hbad.
  destruct items as [|j items]; [discriminate|].
  assert (status (fst (create_many_route.POST (Some (JObj fields)) now db))
            <> 400) as H400.
  { rewrite (create_many_POST_nonempty fields j items now db Hu).
    unfold try_catch, bind.
    destruct (mapM create_many_route.entry (j :: items) db)
      as [d1 [err|data]]; [discriminate|].
    destruct (prisma_user_createMany data true now d1) as [d2 [err|c]];
      discriminate. }
  split; [|split; [|split]].
  - destruct (create_many_POST_cases (Some (JObj fields)) now db)
      as [[[H4 | H5] _] | [fields' [items' [E [Hu' [_ [Hwf _]]]]]]];
      [contradiction | assumption |].
    inversion E; subst fields'. rewrite Hu in Hu'. inversion Hu'; subst items'.
    congruence.
  - destruct (create_many_POST_cases (Some (JObj fields)) now db)
      as [[_ [He _]] | [fields' [items' [E [Hu' [_ [Hwf _]]]]]]];
      [assumption|].
    inversion E; subst fields'. rewrite Hu in Hu'. inversion Hu'; subst items'.
    congruence.
  - destruct (create_many_POST_cases (Some (JObj fields)) now db)
      as [[_ [_ [Hr _]]] | [fields' [items' [E [Hu' [_ [Hwf _]]]]]]];
      [assumption|].
    inversion E; subst fields'. rewrite Hu in Hu'. inversion Hu'; subst items'.
    congruence.
  - intros Hnull.
    rewrite (create_many_POST_nonempty fields j items now db Hu).
    unfold try_catch.
    rewrite (bind_throws _ _ db db TypeError
               (mapM_entry_null (j :: items) db Hnull)).
    reflexivity.
Qed.

Lemma create_many_bad_entry_aborts_batch_witness :
  forallb is_entry [JObj [("email", JStr "g@x.com")]; JObj [("email", JNum 5)]]
    = false /\
  status (fst (create_many_route.POST
                 (Some (JObj [("users", JArr
                    [JObj [("email", JStr "g@x.com")];
                     JObj [("email", JNum 5)]])])) 5 db_with_a)) = 500 /\
  rows (snd (create_many_route.POST
               (Some (JObj [("users", JArr
                  [JObj [("email", JStr "g@x.com")];
                   JObj [("email", JNum 5)]])])) 5 db_with_a))
    = rows db_with_a.
Proof.
  pose proof (create_many_bad_entry_aborts_batch
                [("users", JArr [JObj [("email", JStr "g@x.com")];
                                 JObj [("email", JNum 5)]])]
                [JObj [("email", JStr "g@x.com")]; JObj [("email", JNum 5)]]
                5 db_with_a eq_refl eq_refl) as H.
  exact (conj eq_refl (conj (proj1 H) (proj1 (proj2 (proj2 H))))).
Defined.

(** X8: a body that does not parse as JSON, or that is the JSON value
    null, makes create-one, create-many and delete-one answer 500 without
    calling the client; a body that is JSON but neither null nor an object
    (a number, a string, a boolean, an array) is read as having none of the
    fields and gets the 400 of the missing field. *)
Theorem body_that_is_no_object (request : option json) (now : Z) (db : Db) :
  (request = None \/ request = Some JNull ->
     exists error,
       create_route.POST request now db
         = ({| status := 500; body := Err error |}, db) /\
       create_many_route.POST request now db
         = ({| status := 500; body := Err error |}, db) /\
       delete_route.DELETE request db
         = ({| status := 500; body := Err error |}, db)) /\
  (forall parsed,
     request = Some parsed -> parsed <> JNull ->
     (forall fields, parsed <> JObj fields) ->
     create_route.POST request now db
       = ({| status := 400; body := Err "Email is required" |}, db) /\
     create_many_route.POST request now db
       = ({| status := 400;
             body := Err "Users array is required and must not be empty" |},
          db) /\
     delete_route.DELETE request db
       = ({| status := 400; body := Err "User ID is required" |}, db)).
Proof.
  split.
  - intros [-> | ->]; eexists; repeat split; reflexivity.
  - intros parsed -> Hnull Hobj.
    destruct parsed as [| | | | |fields|];
      try (repeat split; reflexivity); [contradiction|].
    exfalso. now apply (Hobj fields).
Qed.

Lemma body_that_is_no_object_witness :
  (exists error,
     delete_route.DELETE (Some JNull) db_with_a
       = ({| status := 500; body := Err error |}, db_with_a)) /\
  create_route.POST (Some (JArr [JStr "a@x.com"])) 5 db_with_a
    = ({| status := 400; body := Err "Email is required" |}, db_with_a).
Proof.
  destruct (proj1 (body_that_is_no_object (Some JNull) 5 db_with_a)
              (or_intror eq_refl)) as [error [_ [_ Hd]]].
  assert (JArr [JStr "a@x.com"] <> JNull) as Hn by discriminate.
  assert (forall fields, JArr [JStr "a@x.com"] <> JObj fields) as Ho
    by discriminate.
  split; [exists error; exact Hd|].
  exact (proj1 (proj2 (body_that_is_no_object
                         (Some (JArr [JStr "a@x.com"])) 5 db_with_a)
                  _ eq_refl Hn Ho)).
Defined.

(** ** Ids start at one *)

Lemma insert_rows_cons e n rest now oc :
  insert_rows ((e, n) :: rest) now oc =
    (stored <- insert_row e n now oc ;;
     c <- insert_rows rest now oc ;;
     ret (match stored with Some _ => 1 + c | None => c end)).
Proof. reflexivity. Qed.

Lemma insert_rows_new_ids data now : forall db,
  exists new,
    rows (fst (insert_rows data now None db)) = rows db ++ new /\
    Forall (fun u => seq db <= id u) new.
Proof.
  induction data as [|[e n] data IH]; intros db.
  - exists []. split; [now rewrite app_nil_r | constructor].
  - rewrite insert_rows_cons. unfold bind.
    destruct (has_email e (rows db)) eqn:He.
    + rewrite insert_row_taken by exact He.
      destruct (IH {| online := online db; rows := rows db;
                      seq := seq db + 1; log := log db;
                      coerce_id := coerce_id db |})
        as [new [Hrows Hids]].
      destruct (insert_rows data now None _) as [d2 [err|c]];
        unfold ret; cbn [fst rows seq] in *; exists new; (split; [exact Hrows|]);
        (eapply Forall_impl; [|exact Hids]); cbn; intros; lia.
    + rewrite insert_row_fresh by exact He.
      destruct (IH {| online := online db;
                      rows := rows db ++ [mkUser (seq db) e n now now];
                      seq := seq db + 1; log := log db;
                      coerce_id := coerce_id db |})
        as [new [Hrows Hids]].
      destruct (insert_rows data now None _) as [d2 [err|c]];
        unfold ret; cbn [fst rows seq] in *;
        exists (mkUser (seq db) e n now now :: new);
        (split; [rewrite Hrows, <- app_assoc; reflexivity|]);
        (constructor; [cbn; lia|]);
        (eapply Forall_impl; [|exact Hids]); cbn; intros; lia.
Qed.

Lemma handle_keeps_ids_from_one ev db :
  1 <= seq db /\ Forall (fun u => 1 <= id u) (rows db) ->
  1 <= seq (handle ev db) /\
  Forall (fun u => 1 <= id u) (rows (handle ev db)).
Proof.
  intros [Hseq Hids].
  assert (forall x : response * Db, fails_on db x ->
            1 <= seq (snd x) /\ Forall (fun u => 1 <= id u) (rows (snd x)))
    as Hfail.
  { intros x [_ [_ [Hr [_ [Hs _]]]]]. rewrite Hr. split; [lia | exact Hids]. }
  destruct ev as [request now|request now|request| | |up]; cbn [handle].
  - destruct (create_POST_cases request now db)
      as [Hf | [fields [e [n [_ [_ [_ [_ [_ [_ Hrun]]]]]]]]]];
      [now apply Hfail|].
    rewrite Hrun. cbn [snd seq rows]. split; [lia|].
    apply Forall_app. split; [exact Hids|]. repeat constructor. cbn. lia.
  - destruct (create_many_POST_cases request now db)
      as [Hf | [fields [items [-> [Hu [Hne [Hwf Hon]]]]]]];
      [now apply Hfail|].
    rewrite (create_many_POST_run fields items now db Hu Hne Hwf Hon).
    cbv zeta. cbn [snd].
    pose proof (insert_rows_seq (map entry_row items) now None
                  {| online := online db; rows := rows db; seq := seq db;
                     log := QCreateMany :: log db;
                     coerce_id := coerce_id db |}) as Hmono.
    destruct (insert_rows_new_ids (map entry_row items) now
                {| online := online db; rows := rows db; seq := seq db;
                   log := QCreateMany :: log db;
                   coerce_id := coerce_id db |}) as [new [Hrows Hnew]].
    cbn [seq rows] in Hmono, Hrows, Hnew. rewrite Hrows.
    split; [lia|]. apply Forall_app. split; [exact Hids|].
    eapply Forall_impl; [|exact Hnew]. cbn. intros; lia.
  - destruct (delete_DELETE_cases request db)
      as [Hf
         | [fields [v [z [u [_ [_ [_ [_ [_ [_ Hrun]]]]]]]]]]];
      [now apply Hfail|].
    rewrite Hrun. cbn [snd seq rows]. split; [lia|].
    now apply Forall_filter.
  - destruct (delete_many_DELETE_cases db) as [[_ Hf] | [_ Hrun]];
      [now apply Hfail|].
    rewrite Hrun. cbn [snd seq rows]. split; [lia | constructor].
  - destruct (get_all_GET_cases db) as [[_ Hf] | [_ Hrun]];
      [now apply Hfail|].
    rewrite Hrun. cbn [snd seq rows]. split; [lia | exact Hids].
  - cbn. split; assumption.
Qed.

Lemma reachable_ids_from_one db :
  reachable db ->
  1 <= seq db /\ Forall (fun u => 1 <= id u) (rows db).
Proof.
  induction 1 as [|reading|ev db Hr IH];
    [cbn; split; [lia | constructor] | cbn; split; [lia | constructor]
    | now apply handle_keeps_ids_from_one].
Qed.

(** Delete-one on a truthy [id] that the client reads as [z], with the
    connection up. *)
Lemma delete_DELETE_read fields v z db :
  lookup "id" fields = Some v -> truthy (Some v) = true ->
  id_read db v = Some z -> online db = true ->
  delete_route.DELETE (Some (JObj fields)) db =
    match find (fun v => id v =? z) (rows db) with
    | Some u =>
        ({| status := 200; body := OkUser "User deleted successfully" u |},
         {| online := online db;
            rows := filter (fun v => negb (id v =? z)) (rows db);
            seq := seq db; log := QDelete :: log db;
            coerce_id := coerce_id db |})
    | None =>
        ({| status := 500;
            body := Err (message (PrismaClientError P2025)) |},
         {| online := online db; rows := rows db; seq := seq db;
            log := QDelete :: log db;
            coerce_id := coerce_id db |})
    end.
Proof.
  intros Hid Ht Hread Hon.
  rewrite (delete_DELETE_truthy fields v db Hid Ht), Hread, Hon.
  reflexivity.
Qed.

(** Delete-one on a number that is not zero, with the connection up. *)
Lemma delete_DELETE_number fields z db :
  lookup "id" fields = Some (JNum z) -> z <> 0 -> online db = true ->
  delete_route.DELETE (Some (JObj fields)) db =
    match find (fun v => id v =? z) (rows db) with
    | Some u =>
        ({| status := 200; body := OkUser "User deleted successfully" u |},
         {| online := online db;
            rows := filter (fun v => negb (id v =? z)) (rows db);
            seq := seq db; log := QDelete :: log db;
            coerce_id := coerce_id db |})
    | None =>
        ({| status := 500;
            body := Err (message (PrismaClientError P2025)) |},
         {| online := online db; rows := rows db; seq := seq db;
            log := QDelete :: log db;
            coerce_id := coerce_id db |})
    end.
Proof.
  intros Hid Hz Hon.
  assert (truthy (Some (JNum z)) = true) as Ht.
  { cbn. now destruct (Z.eqb_spec z 0). }
  exact (delete_DELETE_read fields (JNum z) z db Hid Ht eq_refl Hon).
Qed.

(** Delete-one with the id of a record of a table the handlers have
    built. *)
Lemma delete_DELETE_existing db u fields :
  reachable db -> online db = true -> In u (rows db) ->
  lookup "id" fields = Some (JNum (id u)) ->
  delete_route.DELETE (Some (JObj fields)) db =
    ({| status := 200; body := OkUser "User deleted successfully" u |},
     {| online := online db;
        rows := filter (fun v => negb (id v =? id u)) (rows db);
        seq := seq db; log := QDelete :: log db;
        coerce_id := coerce_id db |}).
Proof.
  intros Hr Hon Hin Hid.
  destruct (reachable_ids_from_one db Hr) as [_ Hpos].
  rewrite Forall_forall in Hpos. pose proof (Hpos u Hin) as Hu.
  assert (id u <> 0) as Hz by lia.
  pose proof (unique_id _ _ (reachable_ok db Hr)) as Hnd.
  rewrite (delete_DELETE_number fields (id u) db Hid Hz Hon).
  destruct (find (fun v => id v =? id u) (rows db)) as [w|] eqn:Hf.
  - destruct (find_id_some _ _ _ Hf) as [Hw Hwid].
    assert (w = u) as ->; [|reflexivity].
    clear Hf Hpos. induction (rows db) as [|x rs IH]; [destruct Hin|].
    cbn [map] in Hnd. apply NoDup_cons_iff in Hnd.
    destruct Hnd as [Hx Hnd].
    destruct Hin as [->|Hin], Hw as [->|Hw]; auto.
    + exfalso. apply Hx. rewrite <- Hwid. now apply in_map.
    + exfalso. apply Hx. rewrite Hwid. now apply in_map.
  - exfalso. pose proof (find_none _ _ Hf u Hin) as Hno.
    cbn in Hno. rewrite Z.eqb_refl in Hno. discriminate.
Qed.

(** X9: in every state the handlers can bring the table to, every record
    has an id of at least 1.  So the [!id] check of delete-one never turns
    away the id of a record: with the connection up, delete-one with the id
    of any record of the table answers 200 with that record and removes
    it. *)
Theorem every_record_can_be_deleted_by_id
    (db : Db) (u : User) (fields : list (string * json)) :
  reachable db ->
  online db = true ->
  In u (rows db) ->
  lookup "id" fields = Some (JNum (id u)) ->
  1 <= id u /\
  fst (delete_route.DELETE (Some (JObj fields)) db)
    = {| status := 200; body := OkUser "User deleted successfully" u |} /\
  S (List.length (rows (snd (delete_route.DELETE (Some (JObj fields)) db))))
    = List.length (rows db) /\
  ~ In u (rows (snd (delete_route.DELETE (Some (JObj fields)) db))).
Proof.
  intros Hr Hon Hin Hid.
  destruct (reachable_ids_from_one db Hr) as [_ Hpos].
  rewrite Forall_forall in Hpos. split; [exact (Hpos u Hin)|].
  rewrite (delete_DELETE_existing db u fields Hr Hon Hin Hid).
  cbn [fst snd rows]. split; [reflexivity|].
  destruct (filter_out_id (rows db) u
              (unique_id _ _ (reachable_ok db Hr)) Hin) as [Hlen [Hgone _]].
  split; assumption.
Qed.

Lemma every_record_can_be_deleted_by_id_witness :
  reachable db_after_create /\
  In (mkUser 1 "a@x.com" None 10 10) (rows db_after_create) /\
  fst (delete_route.DELETE (Some (JObj [("id", JNum 1)])) db_after_create)
    = {| status := 200;
         body := OkUser "User deleted successfully"
                   (mkUser 1 "a@x.com" None 10 10) |}.
Proof.
  assert (reachable db_after_create) as Hr
    by (apply reachable_step, reachable_empty).
  assert (In (mkUser 1 "a@x.com" None 10 10) (rows db_after_create)) as Hin
    by (now left).
  exact (conj Hr (conj Hin
           (proj1 (proj2 (every_record_can_be_deleted_by_id db_after_create
                            (mkUser 1 "a@x.com" None 10 10)
                            [("id", JNum 1)] Hr eq_refl Hin eq_refl))))).
Defined.

(** ** Requests one after the other *)

Lemma find_new_id rs u :
  Forall (fun v => id v < id u) rs ->
  find (fun v => id v =? id u) (rs ++ [u]) = Some u /\
  filter (fun v => negb (id v =? id u)) (rs ++ [u]) = rs.
Proof.
  induction 1 as [|w rs Hw Hrs [IH1 IH2]]; cbn.
  - rewrite Z.eqb_refl. now cbn.
  - destruct (Z.eqb_spec (id w) (id u)) as [E|E]; [lia|].
    cbn. split; [exact IH1 | now rewrite IH2].
Qed.

(** X10: create-one followed by delete-one with the id of the record just
    returned gives that record back and leaves the table with exactly the
    rows it had before the two requests. *)
Theorem create_then_delete_restores_rows
    (request : option json) (now : Z) (db : Db)
    (fields : list (string * json)) :
  reachable db ->
  status (fst (create_route.POST request now db)) = 200 ->
  exists u,
    body (fst (create_route.POST request now db))
      = OkUser "User created successfully" u /\
    (lookup "id" fields = Some (JNum (id u)) ->
     fst (delete_route.DELETE (Some (JObj fields))
            (snd (create_route.POST request now db)))
       = {| status := 200; body := OkUser "User deleted successfully" u |} /\
     rows (snd (delete_route.DELETE (Some (JObj fields))
                  (snd (create_route.POST request now db))))
       = rows db).
Proof.
  intros Hr Hst.
  destruct (create_POST_cases request now db)
    as [[[H4 | H5] _] | [cfields [e [n [_ [_ [_ [_ [Hon [_ Hrun]]]]]]]]]];
    [congruence | congruence |].
  rewrite Hrun. cbn [fst snd body].
  set (u := mkUser (seq db) e n now now). exists u.
  split; [reflexivity|]. intros Hid.
  destruct (reachable_ids_from_one db Hr) as [Hseq _].
  pose proof (ids_drawn _ _ (reachable_ok db Hr)) as Hdrawn.
  assert (id u <> 0) as Hz by (cbn; lia).
  rewrite (delete_DELETE_number fields (id u)
             {| online := online db; rows := rows db ++ [u];
                seq := seq db + 1; log := QCreate :: log db;
                coerce_id := coerce_id db |} Hid Hz Hon).
  cbn [rows].
  destruct (find_new_id (rows db) u Hdrawn) as [Hfind Hfilter].
  rewrite Hfind. cbn [fst snd rows]. rewrite Hfilter. split; reflexivity.
Qed.

Lemma create_then_delete_restores_rows_witness :
  reachable db_after_create /\
  status (fst (create_route.POST (Some (JObj body_bea)) 20 db_after_create))
    = 200 /\
  rows (snd (delete_route.DELETE (Some (JObj [("id", JNum 2)]))
               (snd (create_route.POST (Some (JObj body_bea)) 20
                       db_after_create))))
    = rows db_after_create.
Proof.
  assert (reachable db_after_create) as Hr
    by (apply reachable_step, reachable_empty).
  destruct (create_then_delete_restores_rows (Some (JObj body_bea)) 20
              db_after_create [("id", JNum 2)] Hr eq_refl)
    as [u [Hbody Hdel]].
  assert (u = mkUser 2 "b@x.com" (Some "Bea") 20 20) as ->
    by (vm_compute in Hbody; congruence).
  exact (conj Hr (conj eq_refl (proj2 (Hdel eq_refl)))).
Defined.

Lemma find_after_filter z rs :
  find (fun v => id v =? z) (filter (fun v => negb (id v =? z)) rs) = None.
Proof.
  induction rs as [|w rs IH]; [reflexivity|]. cbn [filter].
  destruct (id w =? z) eqn:E; cbn [negb find]; [exact IH|].
  now rewrite E.
Qed.

(** X11: delete-one is not repeatable: when a delete-one request was
    answered 200, the same request sent again is answered 500 with the
    client's no-match error, and changes no row. *)
Theorem delete_twice_fails_the_second_time
    (request : option json) (db : Db) :
  status (fst (delete_route.DELETE request db)) = 200 ->
  fst (delete_route.DELETE request (snd (delete_route.DELETE request db)))
    = {| status := 500; body := Err (message (PrismaClientError P2025)) |} /\
  rows (snd (delete_route.DELETE request
               (snd (delete_route.DELETE request db))))
    = rows (snd (delete_route.DELETE request db)).
Proof.
  intros Hst.
  destruct (delete_DELETE_cases request db)
    as [[[H4 | H5] _]
       | [fields [v [z [u [-> [Hid [Ht [Hread [Hon [_ Hrun]]]]]]]]]]];
    [congruence | congruence |].
  rewrite Hrun. cbn [snd].
  rewrite (delete_DELETE_read fields v z
             {| online := online db;
                rows := filter (fun v => negb (id v =? z)) (rows db);
                seq := seq db; log := QDelete :: log db;
                coerce_id := coerce_id db |} Hid Ht Hread Hon).
  cbn [rows]. rewrite find_after_filter. split; reflexivity.
Qed.

Lemma delete_twice_fails_the_second_time_witness :
  status (fst (delete_route.DELETE (Some (JObj [("id", JNum 1)]))
                 db_with_a_b)) = 200 /\
  status (fst (delete_route.DELETE (Some (JObj [("id", JNum 1)]))
                 (snd (delete_route.DELETE (Some (JObj [("id", JNum 1)]))
                         db_with_a_b)))) = 500.
Proof.
  pose proof (delete_twice_fails_the_second_time
                (Some (JObj [("id", JNum 1)])) db_with_a_b eq_refl) as H.
  refine (conj eq_refl _). rewrite (proj1 H). reflexivity.
Defined.

(** X12: create-many has no check of its own on the addresses.  An entry
    whose [email] is the empty string, which create-one turns away with
    status 400, is stored by create-many: the answer is 200 with count 1
    and the table gets a record whose address is the empty string. *)
Theorem create_many_takes_the_empty_address
    (efields : list (string * json)) (now : Z) (db : Db) :
  lookup "email" efields = Some (JStr "") ->
  is_entry (JObj efields) = true ->
  online db = true ->
  ~ In "" (map email (rows db)) ->
  create_route.POST (Some (JObj efields)) now db
    = ({| status := 400; body := Err "Email is required" |}, db) /\
  exists u,
    email u = "" /\
    fst (create_many_route.POST
           (Some (JObj [("users", JArr [JObj efields])])) now db)
      = {| status := 200; body := OkCount "Users created successfully" 1 |} /\
    rows (snd (create_many_route.POST
                 (Some (JObj [("users", JArr [JObj efields])])) now db))
      = rows db ++ [u].
Proof.
  intros He Hwf Hon Hfree. split.
  - run_handler. rewrite He. reflexivity.
  - assert (forallb is_entry [JObj efields] = true) as Hall
      by (cbn [forallb]; now rewrite Hwf).
    assert ([JObj efields] <> []) as Hne by discriminate.
    apply has_email_not_In in Hfree.
    set (u := mkUser (seq db) "" (entry_name (JObj efields)) now now).
    assert (insert_rows (map entry_row [JObj efields]) now None
              {| online := online db; rows := rows db; seq := seq db;
                 log := QCreateMany :: log db;
                 coerce_id := coerce_id db |}
            = ({| online := online db; rows := rows db ++ [u];
                  seq := seq db + 1 ; log := QCreateMany :: log db;
                  coerce_id := coerce_id db |},
               inr 1)) as Hins.
    { cbn [map]. unfold entry_row. rewrite insert_rows_cons. unfold bind.
      cbn [entry_email]. rewrite He.
      rewrite insert_row_fresh by exact Hfree. reflexivity. }
    rewrite (create_many_POST_run [("users", JArr [JObj efields])]
               [JObj efields] now db eq_refl Hne Hall Hon).
    cbv zeta. rewrite Hins. exists u. cbn [fst snd rows].
    split; [|split]; reflexivity.
Qed.

Lemma create_many_takes_the_empty_address_witness :
  is_entry (JObj body_blank_email) = true /\
  online db_with_a = true /\
  fst (create_many_route.POST
         (Some (JObj [("users", JArr [JObj body_blank_email])])) 5 db_with_a)
    = {| status := 200; body := OkCount "Users created successfully" 1 |} /\
  status (fst (create_route.POST (Some (JObj body_blank_email)) 5 db_with_a))
    = 400.
Proof.
  assert (~ In "" (map email (rows db_with_a))) as Hfree.
  { cbn. intros [E|[]]. discriminate. }
  destruct (create_many_takes_the_empty_address body_blank_email 5 db_with_a
              eq_refl eq_refl eq_refl Hfree) as [Hone [u [_ [Hmany _]]]].
  refine (conj eq_refl (conj eq_refl (conj Hmany _))).
  rewrite Hone. reflexivity.
Defined.

(** ** The page, on any network *)

(** What the [try]/[catch]/[finally] of a button comes to, by the answers
    to its request and to the refresh. *)
Lemma button_run {Net} (fetch : Fetch -> Net -> (string + payload) * Net)
    (f : Fetch) (h2 : Home) (w : World Net) :
  (let (h4, w4) :=
     match await_fetch Net fetch f w with
     | (inr data, w3) =>
         fetchAllUsers Net fetch (setOutput (Json data) h2) w3
     | (inl error, w3) => (setOutput (Text ("Error: " ++ error)) h2, w3)
     end in
   (setLoading false h4, w4)) =
  match fetch f (net w) with
  | (inl error, n1) =>
      ({| users := users h2; loading := false;
          output := Text ("Error: " ++ error) |},
       {| net := n1; sent := sent w ++ [f] |})
  | (inr data, n1) =>
      match fetch get_all_request n1 with
      | (inr listed, n2) =>
          ({| users := users_or_empty listed; loading := false;
              output := Json data |},
           {| net := n2; sent := (sent w ++ [f]) ++ [get_all_request] |})
      | (inl _, n2) =>
          ({| users := users h2; loading := false; output := Json data |},
           {| net := n2; sent := (sent w ++ [f]) ++ [get_all_request] |})
      end
  end.
Proof.
  unfold fetchAllUsers, await_fetch.
  destruct (fetch f (net w)) as [[error|data] n1]; cbn; [reflexivity|].
  destruct (fetch get_all_request n1) as [[error|listed] n2]; reflexivity.
Qed.

(** X13: on any network, a button that sends its request leaves the page
    idle ([loading] false) and never leaves the progress text standing.
    When the request is answered the output is the answer, also when the
    refresh that follows fails; when it is rejected the output is the
    error text and the listed users stay as they were.  This holds for
    Create Single User, Create Multiple Users, Delete All Users, and for
    Delete Single User whenever the page lists a user. *)
Theorem buttons_end_idle_with_the_answer (Net : Type)
    (fetch : Fetch -> Net -> (string + payload) * Net)
    (h : Home) (w : World Net) (f : Fetch) (res : Home * World Net) :
  (exists Date_now, f = create_request Date_now /\
     res = handleCreateSingleUser Net fetch Date_now h w) \/
  (exists t1 t2 t3, f = create_many_request t1 t2 t3 /\
     res = handleCreateMany Net fetch t1 t2 t3 h w) \/
  (f = delete_many_request /\ res = handleDeleteMany Net fetch h w) \/
  (exists first rest, users h = first :: rest /\
     f = delete_request (id first) /\
     res = handleDeleteSingle Net fetch h w) ->
  loading (fst res) = false /\
  (forall error n1, fetch f (net w) = (inl error, n1) ->
     output (fst res) = Text ("Error: " ++ error) /\
     users (fst res) = users h /\
     net (snd res) = n1) /\
  (forall data n1, fetch f (net w) = (inr data, n1) ->
     output (fst res) = Json data /\
     (forall listed n2, fetch get_all_request n1 = (inr listed, n2) ->
        users (fst res) = users_or_empty listed) /\
     (forall error n2, fetch get_all_request n1 = (inl error, n2) ->
        users (fst res) = users h)).
Proof.
  intros Hwhich.
  assert (res =
    match fetch f (net w) with
    | (inl error, n1) =>
        ({| users := users h; loading := false;
            output := Text ("Error: " ++ error) |},
         {| net := n1; sent := sent w ++ [f] |})
    | (inr data, n1) =>
        match fetch get_all_request n1 with
        | (inr listed, n2) =>
            ({| users := users_or_empty listed; loading := false;
                output := Json data |},
             {| net := n2; sent := (sent w ++ [f]) ++ [get_all_request] |})
        | (inl _, n2) =>
            ({| users := users h; loading := false; output := Json data |},
             {| net := n2; sent := (sent w ++ [f]) ++ [get_all_request] |})
        end
    end) as ->.
  { destruct Hwhich as [[t [-> ->]] | [[t1 [t2 [t3 [-> ->]]]] |
                        [[-> ->] | [first [rest [Hl [-> ->]]]]]]].
    - unfold handleCreateSingleUser. cbv zeta. rewrite button_run. reflexivity.
    - unfold handleCreateMany. cbv zeta. rewrite button_run. reflexivity.
    - unfold handleDeleteMany. cbv zeta. rewrite button_run. reflexivity.
    - unfold handleDeleteSingle. rewrite Hl. cbv zeta.
      rewrite button_run. cbn [users setOutput setLoading].
      rewrite Hl. reflexivity. }
  destruct (fetch f (net w)) as [[error|data] n1].
  - cbn. split; [reflexivity|]. split.
    + intros error' n1' E. inversion E; subst. auto.
    + intros data n1' E. discriminate.
  - destruct (fetch get_all_request n1) as [[error|listed] n2] eqn:Hall;
      cbn; (split; [reflexivity|]); (split; [intros ? ? E; discriminate|]);
      intros data' n1' E; inversion E; subst; rewrite Hall;
      (split; [reflexivity|]);
      (split; intros ? ? E'; inversion E'; subst; reflexivity).
Qed.

Lemma buttons_end_idle_with_the_answer_witness :
  loading (fst (handleDeleteSingle Server serve Home_with_a
                  (mkWorld server_with_a []))) = false /\
  output (fst (handleDeleteSingle Server serve Home_with_a
                 (mkWorld server_with_a [])))
    = Json (OkUser "User deleted successfully" (mkUser 1 "a@x.com" None 5 5)).
Proof.
  pose proof (buttons_end_idle_with_the_answer Server serve Home_with_a
                (mkWorld server_with_a []) (delete_request 1)
                (handleDeleteSingle Server serve Home_with_a
                   (mkWorld server_with_a []))
                (or_intror (or_intror (or_intror
                   (ex_intro _ (mkUser 1 "a@x.com" None 5 5)
                      (ex_intro _ [] (conj eq_refl (conj eq_refl eq_refl)))))))
             ) as H.
  exact (conj (proj1 H) (proj1 (proj2 (proj2 H) _ _ eq_refl))).
Defined.

(** ** The page on its server *)

Lemma handle_keeps_online ev db :
  match ev with
  | EvLink _ => True
  | _ => online (handle ev db) = online db
  end.
Proof.
  destruct ev as [request now|request now|request| | |up]; cbn [handle];
    [| | | | |exact I].
  - destruct (create_POST_cases request now db)
      as [[_ [_ [_ [H _]]]] | [fields [e [n [_ [_ [_ [_ [_ [_ Hrun]]]]]]]]]];
      [exact H|]. now rewrite Hrun.
  - destruct (create_many_POST_cases request now db)
      as [[_ [_ [_ [H _]]]] | [fields [items [-> [Hu [Hne [Hwf Hon]]]]]]];
      [exact H|].
    exact (proj2 (proj2 (create_many_POST_ok_answer fields items now db
                           Hu Hne Hwf Hon))).
  - destruct (delete_DELETE_cases request db)
      as [[_ [_ [_ [H _]]]]
         | [fields [v [z [u [_ [_ [_ [_ [_ [_ Hrun]]]]]]]]]]];
      [exact H|]. now rewrite Hrun.
  - destruct (delete_many_DELETE_cases db)
      as [[_ [_ [_ [_ [H _]]]]] | [_ Hrun]]; [exact H|]. now rewrite Hrun.
  - destruct (get_all_GET_cases db)
      as [[_ [_ [_ [_ [H _]]]]] | [_ Hrun]]; [exact H|]. now rewrite Hrun.
Qed.

(** With the link up, each request of the page reaches its handler. *)
Lemma serve_routes s :
  link s = true ->
  (forall t, serve (create_request t) s =
     served s (create_route.POST (sent_body (create_request t))
                 (clock s) (database s))) /\
  (forall t1 t2 t3, serve (create_many_request t1 t2 t3) s =
     served s (create_many_route.POST
                 (sent_body (create_many_request t1 t2 t3))
                 (clock s) (database s))) /\
  (forall i, serve (delete_request i) s =
     served s (delete_route.DELETE (sent_body (delete_request i))
                 (database s))) /\
  serve delete_many_request s =
    served s (delete_many_route.DELETE (database s)) /\
  serve get_all_request s = served s (get_all_route.GET (database s)).
Proof.
  intros Hl. unfold serve.
  replace (negb (link s)) with false by (now rewrite Hl).
  repeat split; intros; reflexivity.
Qed.

Lemma serve_get_all s :
  server_up s ->
  exists s',
    serve get_all_request s = (inr (OkUsers (listing s)), s') /\
    rows (database s') = rows (database s) /\
    server_up s'.
Proof.
  intros [Hl Hon].
  destruct (serve_routes s Hl) as [_ [_ [_ [_ Hget]]]]. rewrite Hget.
  destruct (get_all_GET_cases (database s)) as [[Hoff _] | [_ Hrun]];
    [congruence|].
  rewrite Hrun. unfold served. cbn [fst snd body].
  eexists. split; [reflexivity|]. split; [reflexivity|].
  split; [exact Hl | exact Hon].
Qed.

(** A button whose request reached a handler, on a server that is up. *)
Lemma button_on_server s sent0 f h2 (r : response * Db) :
  server_up s ->
  serve f s = served s r ->
  online (snd r) = online (database s) ->
  exists s',
    (let (h4, w4) :=
       match await_fetch Server serve f (mkWorld s sent0) with
       | (inr data, w3) =>
           fetchAllUsers Server serve (setOutput (Json data) h2) w3
       | (inl error, w3) => (setOutput (Text ("Error: " ++ error)) h2, w3)
       end in
     (setLoading false h4, w4))
    = ({| users := order_by_createdAt desc (rows (snd r));
          loading := false; output := Json (body (fst r)) |},
       {| net := s'; sent := (sent0 ++ [f]) ++ [get_all_request] |}) /\
    rows (database s') = rows (snd r) /\ server_up s'.
Proof.
  intros [Hl Hon] Hs Hkeep.
  rewrite button_run. cbn [net sent]. rewrite Hs. unfold served.
  assert (server_up {| database := snd r; clock := clock s + 1;
                       link := link s |}) as Hup1.
  { split; cbn [link database]; [exact Hl | now rewrite Hkeep]. }
  destruct (serve_get_all _ Hup1) as [s' [Hget [Hrows Hup']]].
  rewrite Hget. exists s'. unfold listing. cbn [database] in *.
  split; [reflexivity|]. split; assumption.
Qed.

(** X14: on a server whose link and database are up, whatever the page
    showed before and whatever the handler answered, after Create Single
    User, Create Multiple Users, Delete All Users, Fetch All Users, and
    Delete Single User from a page that lists a user, the page lists
    exactly the records of the table, newest first. *)
Theorem page_lists_the_table_after_a_button
    (s : Server) (sent0 : list Fetch) (h : Home) :
  server_up s ->
  (forall Date_now,
     lists_the_table
       (handleCreateSingleUser Server serve Date_now h (mkWorld s sent0))) /\
  (forall t1 t2 t3,
     lists_the_table
       (handleCreateMany Server serve t1 t2 t3 h (mkWorld s sent0))) /\
  lists_the_table (handleDeleteMany Server serve h (mkWorld s sent0)) /\
  (users h <> [] ->
     lists_the_table (handleDeleteSingle Server serve h (mkWorld s sent0))) /\
  lists_the_table (fetchAllUsers Server serve h (mkWorld s sent0)).
Proof.
  intros Hup. pose proof Hup as [Hl Hon].
  destruct (serve_routes s Hl) as [Hc [Hm [Hd [Hdm _]]]].
  assert (forall f h2 r,
    serve f s = served s r -> online (snd r) = online (database s) ->
    lists_the_table
      (let (h4, w4) :=
         match await_fetch Server serve f (mkWorld s sent0) with
         | (inr data, w3) =>
             fetchAllUsers Server serve (setOutput (Json data) h2) w3
         | (inl error, w3) => (setOutput (Text ("Error: " ++ error)) h2, w3)
         end in
       (setLoading false h4, w4))) as Hbutton.
  { intros f h2 r Hs Hkeep.
    destruct (button_on_server s sent0 f h2 r Hup Hs Hkeep)
      as [s' [Hrun [Hrows _]]].
    rewrite Hrun. unfold lists_the_table, listing. cbn [fst snd users net].
    now rewrite Hrows. }
  split; [|split; [|split; [|split]]].
  - intros t. unfold handleCreateSingleUser. cbv zeta.
    apply (Hbutton _ _ _ (Hc t)).
    exact (handle_keeps_online (EvCreate _ _) (database s)).
  - intros t1 t2 t3. unfold handleCreateMany. cbv zeta.
    apply (Hbutton _ _ _ (Hm t1 t2 t3)).
    exact (handle_keeps_online (EvCreateMany _ _) (database s)).
  - unfold handleDeleteMany. cbv zeta. apply (Hbutton _ _ _ Hdm).
    exact (handle_keeps_online EvDeleteMany (database s)).
  - intros Hne. unfold handleDeleteSingle.
    destruct (users h) as [|first rest]; [contradiction|]. cbv zeta.
    apply (Hbutton _ _ _ (Hd (id first))).
    exact (handle_keeps_online (EvDelete _) (database s)).
  - unfold fetchAllUsers, await_fetch. cbn [net sent].
    destruct (serve_get_all s Hup) as [s' [Hget [Hrows _]]].
    rewrite Hget. unfold lists_the_table, listing. cbn. now rewrite Hrows.
Qed.

Lemma page_lists_the_table_after_a_button_witness :
  server_up server_with_a /\
  users (fst (handleCreateSingleUser Server serve 42 initial_Home
                (mkWorld server_with_a [])))
    = listing (net (snd (handleCreateSingleUser Server serve 42 initial_Home
                           (mkWorld server_with_a [])))).
Proof.
  assert (server_up server_with_a) as Hup by (split; reflexivity).
  exact (conj Hup
           (proj1 (page_lists_the_table_after_a_button server_with_a []
                     initial_Home Hup) 42)).
Defined.

(** X15: Fetch All Users against a server that answers while its database
    cannot be reached empties the page's list, whatever the page listed
    and whatever the table holds: the 500 answer has no [users], and
    [data.users || []] is the empty list.  When the request itself does not
    get through, the list is kept. *)
Theorem refresh_without_database_empties_the_list
    (s : Server) (sent0 : list Fetch) (h : Home) :
  (link s = true -> online (database s) = false ->
     fst (fetchAllUsers Server serve h (mkWorld s sent0)) = setUsers [] h) /\
  (link s = false ->
     fst (fetchAllUsers Server serve h (mkWorld s sent0)) = h).
Proof.
  split.
  - intros Hl Hoff. unfold fetchAllUsers, await_fetch. cbn [net sent].
    destruct (serve_routes s Hl) as [_ [_ [_ [_ Hget]]]]. rewrite Hget.
    destruct (get_all_GET_cases (database s))
      as [[_ [_ [Herr _]]] | [Hon _]]; [|congruence].
    unfold served. cbn [fst].
    destruct (body (fst (get_all_route.GET (database s))));
      [reflexivity | discriminate | discriminate | discriminate].
  - intros Hl. unfold fetchAllUsers, await_fetch, serve. cbn [net sent].
    rewrite Hl. reflexivity.
Qed.

Lemma refresh_without_database_empties_the_list_witness :
  users (fst (fetchAllUsers Server serve Home_with_a
                (mkWorld {| database := with_online db_with_a false;
                            clock := 7; link := true |} []))) = [] /\
  fst (fetchAllUsers Server serve Home_with_a
         (mkWorld {| database := db_with_a; clock := 7; link := false |} []))
    = Home_with_a.
Proof.
  pose proof (proj1 (refresh_without_database_empties_the_list
                {| database := with_online db_with_a false;
                   clock := 7; link := true |} [] Home_with_a)
                eq_refl eq_refl) as H1.
  pose proof (proj2 (refresh_without_database_empties_the_list
                {| database := db_with_a; clock := 7; link := false |}
                [] Home_with_a) eq_refl) as H2.
  refine (conj _ H2). rewrite H1. reflexivity.
Defined.

(** ** Removal from the list of the page *)

(** X16: Delete Single User on a page that shows the records of the table
    of a server that is up, newest first, deletes a newest record: the
    first record listed is in the table and none is newer, it is removed
    from the table, the output is the handler's success answer with that
    record, and the page then lists the other records it listed before and
    no more, newest first.  Nothing is said of the order among records
    created at the same instant, neither before nor after. *)
Theorem delete_single_removes_the_first_listed
    (s : Server) (sent0 : list Fetch) (h : Home)
    (first : User) (rest : list User) :
  server_up s ->
  reachable (database s) ->
  Permutation (users h) (rows (database s)) ->
  StronglySorted newer_first (users h) ->
  users h = first :: rest ->
  In first (rows (database s)) /\
  (forall v, In v (rows (database s)) -> createdAt v <= createdAt first) /\
  output (fst (handleDeleteSingle Server serve h (mkWorld s sent0)))
    = Json (OkUser "User deleted successfully" first) /\
  rows (database (net (snd (handleDeleteSingle Server serve h
                              (mkWorld s sent0)))))
    = filter (fun v => negb (id v =? id first)) (rows (database s)) /\
  Permutation
    (users (fst (handleDeleteSingle Server serve h (mkWorld s sent0))))
    rest /\
  StronglySorted newer_first
    (users (fst (handleDeleteSingle Server serve h (mkWorld s sent0)))) /\
  ~ In first
      (users (fst (handleDeleteSingle Server serve h (mkWorld s sent0)))).
Proof.
  intros Hup Hr Hperm Hsorted Hl. pose proof Hup as [Hlink Hon].
  rewrite Hl in Hperm, Hsorted.
  assert (In first (rows (database s))) as Hin.
  { eapply Permutation_in; [exact Hperm | now left]. }
  split; [exact Hin|]. split.
  { inversion Hsorted as [|? ? _ Hfirst]; subst.
    intros v Hv. apply (Permutation_in _ (Permutation_sym Hperm)) in Hv.
    destruct Hv as [<-|Hv]; [lia|].
    rewrite Forall_forall in Hfirst. exact (Hfirst v Hv). }
  destruct (serve_routes s Hlink) as [_ [_ [Hd _]]].
  specialize (Hd (id first)).
  pose proof (delete_DELETE_existing (database s) first
                [("id", JNum (id first))] Hr Hon Hin eq_refl) as Hdel.
  change (sent_body (delete_request (id first)))
    with (Some (JObj [("id", JNum (id first))])) in Hd.
  unfold handleDeleteSingle. rewrite Hl. cbv zeta.
  destruct (button_on_server s sent0 (delete_request (id first))
              (setOutput (Text "Deleting single user...") (setLoading true h))
              _ Hup Hd
              (handle_keeps_online (EvDelete _) (database s)))
    as [s' [Hrun [Hrows _]]].
  rewrite Hrun. cbn [fst snd output users net]. rewrite Hrows, Hdel.
  cbn [fst snd body rows]. split; [reflexivity|]. split; [reflexivity|].
  set (others := filter (fun v => negb (id v =? id first))
                   (rows (database s))).
  assert (Permutation rest others) as Hrest.
  { assert (NoDup (map id (first :: rest))) as Hnd.
    { eapply Permutation_NoDup;
        [apply Permutation_map, Permutation_sym; exact Hperm |].
      exact (unique_id _ _ (reachable_ok _ Hr)). }
    cbn [map] in Hnd. apply NoDup_cons_iff in Hnd. destruct Hnd as [Hnot _].
    pose proof (filter_perm (fun v => negb (id v =? id first)) _ _ Hperm)
      as Hfilter.
    cbn [filter] in Hfilter. rewrite Z.eqb_refl in Hfilter.
    cbn [negb] in Hfilter. fold others in Hfilter.
    rewrite forallb_filter_id in Hfilter; [exact Hfilter|].
    apply forallb_forall. intros v Hv.
    apply negb_true_iff, Z.eqb_neq. intros E.
    apply Hnot. rewrite <- E. now apply in_map. }
  split; [|split].
  - apply Permutation_sym.
    exact (Permutation_trans Hrest (order_by_createdAt_perm desc others)).
  - apply order_by_createdAt_desc_sorted.
  - intros Hafter.
    apply (Permutation_in _
             (Permutation_sym (order_by_createdAt_perm desc others)))
      in Hafter.
    apply filter_In in Hafter. destruct Hafter as [_ Hid].
    rewrite Z.eqb_refl in Hid. discriminate.
Qed.

Lemma delete_single_removes_the_first_listed_witness :
  server_up {| database := db_after_batch; clock := 50; link := true |} /\
  reachable db_after_batch /\
  Permutation (users Home_b_a) (rows db_after_batch) /\
  StronglySorted newer_first (users Home_b_a) /\
  output (fst (handleDeleteSingle Server serve Home_b_a
                 (mkWorld {| database := db_after_batch; clock := 50;
                             link := true |} [])))
    = Json (OkUser "User deleted successfully"
              (mkUser 3 "b@x.com" None 10 10)) /\
  Permutation
    (users (fst (handleDeleteSingle Server serve Home_b_a
                   (mkWorld {| database := db_after_batch; clock := 50;
                               link := true |} []))))
    [mkUser 1 "a@x.com" None 10 10].
Proof.
  assert (server_up {| database := db_after_batch; clock := 50;
                       link := true |}) as Hup by (split; reflexivity).
  assert (reachable db_after_batch) as Hr
    by (apply reachable_step, reachable_empty).
  assert (Permutation (users Home_b_a) (rows db_after_batch)) as Hperm
    by apply perm_swap.
  assert (StronglySorted newer_first (users Home_b_a)) as Hsorted.
  { repeat constructor. unfold newer_first. cbn. lia. }
  pose proof (delete_single_removes_the_first_listed
                {| database := db_after_batch; clock := 50; link := true |}
                [] Home_b_a
                (mkUser 3 "b@x.com" None 10 10)
                [mkUser 1 "a@x.com" None 10 10]
                Hup Hr Hperm Hsorted eq_refl) as H.
  destruct H as [_ [_ [Hout [_ [Husers _]]]]].
  exact (conj Hup (conj Hr (conj Hperm (conj Hsorted (conj Hout Husers))))).
Defined.

(** ** The shared client across reloads *)

Lemma prisma_module_reuses env rt c :
  not_production env = true -> global_prisma rt = Some c ->
  prisma_module env rt = (c, rt).
Proof.
  intros Hdev Hg. unfold prisma_module. rewrite Hg, Hdev.
  destruct rt as [g k]. cbn in *. now subst g.
Qed.

Lemma reloads_reuse env c : forall n rt,
  not_production env = true -> global_prisma rt = Some c ->
  reloads env n rt = (repeat c n, rt).
Proof.
  induction n as [|n IH]; intros rt Hdev Hg; [reflexivity|].
  cbn [reloads repeat]. rewrite (prisma_module_reuses env rt c Hdev Hg).
  now rewrite (IH rt Hdev Hg).
Qed.

(** X17: outside production, however often the module is evaluated again
    in one process, it exports one and the same client every time and
    constructs at most one: none when [global.prisma] was already set, one
    otherwise, with [DATABASE_URL] (or the empty string when that is unset
    or empty) as its connection string.  Afterwards [global.prisma] is that
    client. *)
Theorem development_reloads_share_one_client
    (env : ProcessEnv) (n : nat) (rt : Runtime) :
  not_production env = true ->
  exists c,
    fst (reloads env (S n) rt) = repeat c (S n) /\
    global_prisma (snd (reloads env (S n) rt)) = Some c /\
    (forall c0, global_prisma rt = Some c0 ->
       c = c0 /\ constructed (snd (reloads env (S n) rt)) = constructed rt) /\
    (global_prisma rt = None ->
       c = {| instance := constructed rt;
              connectionString := or_empty (DATABASE_URL env) |} /\
       constructed (snd (reloads env (S n) rt)) = S (constructed rt)).
Proof.
  intros Hdev. cbn [reloads].
  destruct (global_prisma rt) as [c0|] eqn:Hg.
  - exists c0. rewrite (prisma_module_reuses env rt c0 Hdev Hg).
    rewrite (reloads_reuse env c0 n rt Hdev Hg). cbn [fst snd repeat].
    split; [reflexivity|]. split; [exact Hg|].
    split; [intros c1 E; inversion E; auto | discriminate].
  - set (c := {| instance := constructed rt;
                 connectionString := or_empty (DATABASE_URL env) |}).
    exists c.
    assert (prisma_module env rt =
              (c, {| global_prisma := Some c;
                     constructed := S (constructed rt) |})) as ->.
    { unfold prisma_module. rewrite Hg, Hdev. reflexivity. }
    rewrite (reloads_reuse env c n
               {| global_prisma := Some c;
                  constructed := S (constructed rt) |} Hdev eq_refl).
    cbn [fst snd repeat].
    split; [reflexivity|]. split; [reflexivity|].
    split; [discriminate | auto].
Qed.

Lemma development_reloads_share_one_client_witness :
  not_production {| DATABASE_URL := Some "postgres://db";
                    NODE_ENV := Some "development" |} = true /\
  fst (reloads {| DATABASE_URL := Some "postgres://db";
                  NODE_ENV := Some "development" |} 3 fresh_runtime)
    = repeat {| instance := 0; connectionString := "postgres://db" |} 3 /\
  constructed (snd (reloads {| DATABASE_URL := Some "postgres://db";
                               NODE_ENV := Some "development" |} 3
                      fresh_runtime)) = 1%nat.
Proof.
  destruct (development_reloads_share_one_client
              {| DATABASE_URL := Some "postgres://db";
                 NODE_ENV := Some "development" |} 2 fresh_runtime eq_refl)
    as [c [Hexp [_ [_ Hnew]]]].
  destruct (Hnew eq_refl) as [Hc Hcount].
  refine (conj eq_refl (conj _ Hcount)).
  rewrite Hexp, Hc. reflexivity.
Defined.

(** X18: in production the module never writes [global.prisma].  With
    [global.prisma] unset, every evaluation therefore constructs a client of
    its own: [n] evaluations export [n] different clients. *)
Theorem production_loads_construct_each_time
    (env : ProcessEnv) (n : nat) (rt : Runtime) :
  not_production env = false ->
  global_prisma (snd (reloads env n rt)) = global_prisma rt /\
  (global_prisma rt = None ->
     map instance (fst (reloads env n rt)) = List.seq (constructed rt) n /\
     NoDup (fst (reloads env n rt)) /\
     constructed (snd (reloads env n rt)) = (constructed rt + n)%nat).
Proof.
  intros Hprod. revert rt.
  induction n as [|n IH]; intros rt.
  - cbn. split; [reflexivity|]. intros _.
    split; [reflexivity|]. split; [constructor | now rewrite Nat.add_0_r].
  - cbn [reloads]. unfold prisma_module. rewrite Hprod.
    destruct (global_prisma rt) as [c0|] eqn:Hg.
    + destruct (IH rt) as [IHg _].
      destruct (reloads env n rt) as [rest rt2]. cbn [fst snd] in *.
      split; [congruence | discriminate].
    + unfold createPrismaClient. rewrite Hg.
      destruct (IH {| global_prisma := None;
                      constructed := S (constructed rt) |}) as [IHg IHn].
      destruct (IHn eq_refl) as [Hids [Hnd Hcount]].
      destruct (reloads env n _) as [rest rt2]. cbn [fst snd] in *.
      split; [exact IHg|]. intros _.
      split; [cbn [map List.seq instance]; now rewrite Hids|].
      split; [|rewrite Hcount; cbn [constructed]; lia].
      constructor; [|exact Hnd].
      intros Hin. apply (in_map instance) in Hin. rewrite Hids in Hin.
      cbn [instance constructed] in Hin. apply in_seq in Hin. lia.
Qed.

Lemma production_loads_construct_each_time_witness :
  not_production {| DATABASE_URL := None;
                    NODE_ENV := Some "production" |} = false /\
  map instance (fst (reloads {| DATABASE_URL := None;
                                NODE_ENV := Some "production" |} 3
                       fresh_runtime)) = [0; 1; 2]%nat /\
  global_prisma (snd (reloads {| DATABASE_URL := None;
                                 NODE_ENV := Some "production" |} 3
                        fresh_runtime)) = None.
Proof.
  pose proof (production_loads_construct_each_time
                {| DATABASE_URL := None; NODE_ENV := Some "production" |}
                3 fresh_runtime eq_refl) as [Hg Hn].
  exact (conj eq_refl (conj (proj1 (Hn eq_refl)) Hg)).
Defined.
